(** * MediClin: the insight generator and the record store

    A shallow embedding of [mediclin.py].  The module names follow the
    source: [MedicalIntelligence] is the class of the same name, with its
    two methods [analyze_patient] and [predict_conditions]; [RecordStore]
    holds the database functions [init_database], [add_patient],
    [get_all_patients] and [save_intelligence_insight]; [PatientForm] is
    the submit handler of [patient_analysis_page].

    Conventions.
    - A Python [float] is the rational number it denotes ([Q]).  Where the
      program computes with floats and compares the results, in
      [random.uniform] and the thresholds of [predict_conditions], every
      literal and every operation is rounded to binary64 ([Float64]).  A
      literal that the program only stores, shows and hands on (0.85, 0.78
      and 0.90) stands as the decimal it is written as, [85 # 100] and so
      on, which is also how the interpreter prints it.
    - A Python [int] is [Z]; the 128-bit integer of a UUID is [N].
    - A dict used as a struct is a record; a key that may be absent (read
      with [dict.get]) is an [option] field.
    - What the program reads from its environment is an explicit argument:
      the outputs of [random.random], the bytes of [os.urandom] and the
      value of SQLite's [CURRENT_TIMESTAMP]. *)

From Stdlib Require Import List String Ascii HexString Bool.
From Stdlib Require Import ZArith NArith QArith Qround Qpower Lia Lqa.
From Stdlib Require Import Sorted Permutation.
From Stdlib Require Import PrimFloat FloatOps SpecFloat.
Import ListNotations.

Local Open Scope string_scope.
Local Open Scope list_scope.

(** ** Python values used as structs *)

(** [patient_data]: the dict handed to the analysis engine.  The page
    builds it with the three keys below; the engine reads ['age'] and
    ['gender'] with [dict.get], so either may be absent. *)
Module PatientData.
Record t := mk {
  age : option Z;
  gender : option string;
  medical_history : option string
}.
End PatientData.

(** One element of the list returned by [analyze_patient]. *)
Module Insight.
Record t := mk {
  type : string;
  insight : string;
  confidence : Q;
  recommendations : list string
}.
End Insight.

(** One element of the list returned by [predict_conditions]. *)
Module Prediction.
Record t := mk {
  condition : string;
  confidence : Q;
  risk_level : string
}.
End Prediction.

(** [d.get(key, default)] on an optional key. *)
Definition dict_get {A : Type} (field : option A) (default : A) : A :=
  match field with
  | Some v => v
  | None => default
  end.

(** Python's [x > y] on floats. *)
Definition Qgtb (x y : Q) : bool := negb (Qle_bool x y).

(** ** Sorting, largest key first

    Both [sorted(..., key=..., reverse=True)] and SQLite's
    [ORDER BY ... DESC] are stable: elements with equal keys keep the order
    they had in the input (for SQLite, the order of the table scan, which
    is the order of the row ids).  A stable sort has one possible result,
    computed here by insertion. *)
Section SortDescending.
Context {A K : Type}.
Variable gtb : K -> K -> bool.
Variable key : A -> K.

(** [x] goes in front of the first element whose key is not greater. *)
Fixpoint insert_desc (x : A) (l : list A) : list A :=
  match l with
  | [] => [x]
  | y :: l' => if gtb (key y) (key x) then y :: insert_desc x l' else x :: l
  end.

Fixpoint sort_desc (l : list A) : list A :=
  match l with
  | [] => []
  | x :: l' => insert_desc x (sort_desc l')
  end.
End SortDescending.

(** ** Python's [float]: binary64

    A finite binary64 number is the rational it denotes; an operation is
    the exact operation followed by the rounding of IEEE 754, to the nearest
    number of 53 significant bits, ties to the even one, with the
    subnormal numbers below [2^-1022].  Infinities and NaN are left out: the
    floats of this program lie between 0 and 1. *)
Module Float64.

(** The exponent [e] of a positive rational: [2^e <= x < 2^(e+1)]. *)
Definition binade (x : Q) : Z :=
  let c := (Z.log2 (Qnum x) - Z.log2 (Z.pos (Qden x)))%Z in
  if Qle_bool (2 ^ c)%Q x then c else (c - 1)%Z.

(** The integer nearest to [q], the even one of two equally near. *)
Definition nearest_even (q : Q) : Z :=
  let f := Qfloor q in
  match ((q - inject_Z f) ?= (1 # 2))%Q with
  | Lt => f
  | Gt => (f + 1)%Z
  | Eq => if Z.even f then f else (f + 1)%Z
  end.

(** The spacing of the binary64 numbers around a positive [x]. *)
Definition quantum (x : Q) : Q := (2 ^ (Z.max (binade x) (-1022) - 52))%Q.

Definition round_positive (x : Q) : Q :=
  (inject_Z (nearest_even (x / quantum x)) * quantum x)%Q.

(** The binary64 number an exact result is rounded to. *)
Definition round (x : Q) : Q :=
  match Qnum x with
  | Z0 => 0%Q
  | Z.pos _ => round_positive x
  | Z.neg _ => (- round_positive (- x))%Q
  end.

(** A decimal literal of the source, as the parser reads it. *)
Definition literal (q : Q) : Q := round q.

Definition add (x y : Q) : Q := round (x + y)%Q.
Definition sub (x y : Q) : Q := round (x - y)%Q.
Definition mul (x y : Q) : Q := round (x * y)%Q.

(** The value of a primitive float of the kernel, for comparison. *)
Definition of_prim (f : float) : option Q :=
  match Prim2SF f with
  | S754_zero _ => Some 0%Q
  | S754_finite sign m e =>
      Some ((if sign then -1 else 1) * inject_Z (Z.pos m) * 2 ^ e)%Q
  | _ => None
  end.

End Float64.

(** ** The [random] module

    [random.random()] returns a float of 53 random bits: an integer [k]
    with [0 <= k < 2^53], times [2^-53].  The generator is the sequence of
    the integers of its future outputs and the number of outputs drawn so
    far. *)
Module Random.
Record t := mk {
  outputs : nat -> Z;
  drawn : nat
}.

(** [random.random()]: the next output, in [[0, 1)]. *)
Definition random (g : t) : Q * t :=
  (Qmake (outputs g (drawn g)) (2 ^ 53), mk (outputs g) (S (drawn g))).

(** [random.uniform(a, b)] is [a + (b - a) * self.random()], on floats. *)
Definition uniform (a b : Q) (g : t) : Q * t :=
  let (r, g) := random g in
  (Float64.add a (Float64.mul (Float64.sub b a) r), g).

(** The same expression on the primitive floats of the kernel. *)
Definition uniform_binary64 (a b r : float) : float :=
  (a + (b - a) * r)%float.

(** What [random.random()] promises of every output. *)
Definition in_unit_interval (g : t) : Prop :=
  forall n, (0 <= outputs g n < 2 ^ 53)%Z.
End Random.

(** ** The analysis engine *)

Module MedicalIntelligence.

(** [self.conditions], set in [__init__]. *)
Definition conditions : list string :=
  [ "Hypertension"; "Diabetes Type 2"; "Cardiovascular Disease";
    "Respiratory Issues"; "Neurological Conditions"; "Metabolic Disorders" ].

Definition risk_assessment : Insight.t :=
  Insight.mk "Risk Assessment"
    "Elevated risk profile due to advanced age"
    0.85
    [ "Regular cardiovascular screening"; "Bone density assessment" ].

Definition cardiovascular_intelligence : Insight.t :=
  Insight.mk "Cardiovascular Intelligence"
    "Increased cardiovascular risk profile"
    0.78
    [ "Annual ECG"; "Lipid profile monitoring" ].

Definition preventive_intelligence : Insight.t :=
  Insight.mk "Preventive Intelligence"
    "Recommend comprehensive health assessment"
    0.90
    [ "Annual physical exam"; "Laboratory screening" ].

(** [analyze_patient]: the list [insights] grows by [append] as each rule
    fires. *)
Definition analyze_patient (patient_data : PatientData.t) : list Insight.t :=
  let insights := [] in
  let age := dict_get (PatientData.age patient_data) 50%Z in
  let gender := dict_get (PatientData.gender patient_data) "Unknown" in
  let insights :=
    if (age >? 65)%Z then insights ++ [risk_assessment] else insights in
  let insights :=
    if (gender =? "Male") && (age >? 45)%Z
    then insights ++ [cardiovascular_intelligence] else insights in
  let insights := insights ++ [preventive_intelligence] in
  insights.

(** The conditional expression that labels a confidence. *)
Definition risk_level_of (confidence : Q) : string :=
  if Qgtb confidence (Float64.literal 0.7) then "High"
  else if Qgtb confidence (Float64.literal 0.4) then "Medium"
  else "Low".

(** The [for condition in self.conditions] loop, one draw per condition. *)
Fixpoint predict_loop (conditions : list string)
    (predictions : list Prediction.t) (g : Random.t)
  : list Prediction.t * Random.t :=
  match conditions with
  | [] => (predictions, g)
  | condition :: rest =>
      let (confidence, g) :=
        Random.uniform (Float64.literal 0.1) (Float64.literal 0.9) g in
      let risk_level := risk_level_of confidence in
      predict_loop rest
        (predictions ++ [Prediction.mk condition confidence risk_level]) g
  end.

(** [predict_conditions]: [patient_data] is not read. *)
Definition predict_conditions (patient_data : PatientData.t) (g : Random.t)
  : list Prediction.t * Random.t :=
  let (predictions, g) := predict_loop conditions [] g in
  (firstn 4 (sort_desc Qgtb Prediction.confidence predictions), g).

End MedicalIntelligence.

(** ** Identifiers: [uuid.uuid4], [str] and [str.upper] *)

Module UUID.

(** [UUID.__init__(..., version=version)] on the integer of the sixteen
    bytes: the variant and version bits are overwritten. *)
Definition init (int version : N) : N :=
  let int := N.ldiff int (N.shiftl 0xc000 48) in
  let int := N.lor int (N.shiftl 0x8000 48) in
  let int := N.ldiff int (N.shiftl 0xf000 64) in
  let int := N.lor int (N.shiftl version 76) in
  int.

(** [uuid4()] is [UUID(bytes=os.urandom(16), version=4)]; [urandom] is
    the integer the sixteen bytes spell, most significant byte first. *)
Definition uuid4 (urandom : N) : N := init urandom 4.

(** ['%x' % n]: lower-case hexadecimal digits, no prefix. *)
Definition format_x (n : N) : string :=
  match n with
  | N0 => "0"
  | Npos p => HexString.Raw.of_pos p ""
  end.

Fixpoint zeros (n : nat) : string :=
  match n with
  | O => ""
  | S n' => String "0" (zeros n')
  end.

(** ['%032x' % n]: padded with zeros on the left up to 32 characters. *)
Definition format_032x (n : N) : string :=
  let digits := format_x n in
  zeros (32 - String.length digits) ++ digits.

(** The slice [s[i:j]] of a string, for [i <= j]. *)
Definition slice (s : string) (i j : nat) : string := substring i (j - i) s.

(** [s[i:]]. *)
Definition slice_from (s : string) (i : nat) : string :=
  substring i (String.length s - i) s.

(** [UUID.__str__]. *)
Definition str (int : N) : string :=
  let hex := format_032x int in
  slice hex 0 8 ++ "-" ++ slice hex 8 12 ++ "-" ++ slice hex 12 16 ++ "-"
    ++ slice hex 16 20 ++ "-" ++ slice_from hex 20.

End UUID.

(** [str.upper] on one character: the letters a to z lose bit 5. *)
Definition upper_char (c : ascii) : ascii :=
  let n := nat_of_ascii c in
  if (97 <=? n)%nat && (n <=? 122)%nat then ascii_of_nat (n - 32) else c.

(** [str.upper]. *)
Fixpoint upper (s : string) : string :=
  match s with
  | EmptyString => EmptyString
  | String c s' => String (upper_char c) (upper s')
  end.

(** [bool(s)] for a string: true unless it is empty. *)
Definition truthy (s : string) : bool := negb (s =? "").

(** ** The record store *)

Module PatientRow.
(** A row of [patients].  [created_at] is [CURRENT_TIMESTAMP], a text
    'YYYY-MM-DD HH:MM:SS' that SQLite compares as text: it is the number of
    seconds it denotes, which orders the same way. *)
Record t := mk {
  id : Z;
  patient_id : string;
  name : string;
  age : Z;
  gender : string;
  medical_history : string;
  created_at : Z
}.
End PatientRow.

Module MedicalDataRow.
(** A row of [medical_data]; the program never writes or reads one. *)
Record t := mk {
  id : Z;
  patient_id : string;
  data_type : string;
  data_value : string;
  confidence_score : Q;
  timestamp : Z
}.
End MedicalDataRow.

Module InsightRow.
(** A row of [intelligence_insights]. *)
Record t := mk {
  id : Z;
  patient_id : string;
  insight_type : string;
  insight_text : string;
  confidence : Q;
  created_at : Z
}.
End InsightRow.

Module RecordStore.

(** The contents of [DATABASE_FILE]: each table in the order of its row
    ids, which is the order of insertion (no row is ever deleted). *)
Record database := mkdb {
  patients : list PatientRow.t;
  medical_data : list MedicalDataRow.t;
  intelligence_insights : list InsightRow.t
}.

(** The exceptions a statement can raise here: [sqlite3.IntegrityError]
    from a constraint, and [OverflowError] from the binding of a parameter. *)
Inductive sqlite_error : Type :=
| IntegrityError (message : string)
| OverflowError (message : string).

(** A database function: it raises or returns, and leaves a database
    behind either way (a statement that raises changes nothing). *)
Definition DB (A : Type) : Type := database -> (sqlite_error + A) * database.

Definition ret {A : Type} (a : A) : DB A := fun db => (inr a, db).

Definition raise {A : Type} (e : sqlite_error) : DB A := fun db => (inl e, db).

Definition bind {A B : Type} (m : DB A) (f : A -> DB B) : DB B :=
  fun db =>
    match m db with
    | (inr a, db') => f a db'
    | (inl e, db') => (inl e, db')
    end.

Notation "x <- m ;; k" := (bind m (fun x => k))
  (at level 61, m at next level, right associativity).
Notation "m ;;; k" := (bind m (fun _ => k))
  (at level 61, right associativity).

(** [init_database]: every table is created [IF NOT EXISTS]; [None] is a
    file that does not exist yet. *)
Definition init_database (file : option database) : database :=
  match file with
  | Some db => db
  | None => mkdb [] [] []
  end.

(** [INTEGER PRIMARY KEY AUTOINCREMENT]: one more than the largest id. *)
Definition next_id (ids : list Z) : Z := (1 + fold_right Z.max 0 ids)%Z.

(** The value of [patient_id] in [add_patient]. *)
Definition new_patient_id (urandom : N) : string :=
  "MI-" ++ upper (UUID.slice (UUID.str (UUID.uuid4 urandom)) 0 8).

(** A Python [int] that SQLite can hold: a signed integer of 64 bits. *)
Definition fits_int64 (n : Z) : bool := ((- 2 ^ 63 <=? n) && (n <? 2 ^ 63))%Z.

(** [add_patient]: [urandom] is what [uuid4] draws and [now] the value of
    [CURRENT_TIMESTAMP].  [cursor.execute] binds the parameters before the
    statement runs, and raises [OverflowError] on an [int] that does not
    fit; the column [patient_id] is [UNIQUE]. *)
Definition add_patient (urandom : N) (now : Z)
    (name : string) (age : Z) (gender medical_history : string) : DB string :=
  let patient_id := new_patient_id urandom in
  fun db =>
    if negb (fits_int64 age)
    then raise (OverflowError "Python int too large to convert to SQLite INTEGER") db
    else if existsb (fun row => PatientRow.patient_id row =? patient_id) (patients db)
    then raise (IntegrityError "UNIQUE constraint failed: patients.patient_id") db
    else
      let row :=
        PatientRow.mk (next_id (map PatientRow.id (patients db)))
          patient_id name age gender medical_history now in
      ret patient_id
        (mkdb (patients db ++ [row]) (medical_data db) (intelligence_insights db)).

(** [get_all_patients]: [SELECT * FROM patients ORDER BY created_at DESC].
    The statement names no second key: rows of equal [created_at] come
    out in the order of the scan, the oldest first. *)
Definition get_all_patients : DB (list PatientRow.t) :=
  fun db => ret (sort_desc Z.gtb PatientRow.created_at (patients db)) db.

(** [save_intelligence_insight]; the table has no constraint to fail. *)
Definition save_intelligence_insight (now : Z)
    (patient_id insight_type insight_text : string) (confidence : Q) : DB unit :=
  fun db =>
    let row :=
      InsightRow.mk (next_id (map InsightRow.id (intelligence_insights db)))
        patient_id insight_type insight_text confidence now in
    ret tt (mkdb (patients db) (medical_data db) (intelligence_insights db ++ [row])).

End RecordStore.

(** ** The form of [patient_analysis_page] *)

Module PatientForm.
Import RecordStore.

(** The [for insight in insights] loop: the [k]-th statement of the run
    reads the clock as [clock k]. *)
Fixpoint save_insights (clock : nat -> Z) (k : nat) (patient_id : string)
    (insights : list Insight.t) : DB unit :=
  match insights with
  | [] => ret tt
  | insight :: rest =>
      save_intelligence_insight (clock k) patient_id
        (Insight.type insight) (Insight.insight insight)
        (Insight.confidence insight) ;;;
      save_insights clock (S k) patient_id rest
  end.

(** The body under [with st.form("patient_form")], from the widgets'
    values: [submitted] is what [st.form_submit_button] returns. *)
Definition on_submit (submitted : bool)
    (name : string) (age : Z) (gender medical_history : string)
    (urandom : N) (clock : nat -> Z) : DB unit :=
  if submitted then
    if truthy name then
      (* st.success and st.write only display; st.rerun ends the run *)
      patient_id <- add_patient urandom (clock 0%nat) name age gender medical_history ;;
      let patient_data :=
        PatientData.mk (Some age) (Some gender) (Some medical_history) in
      let insights := MedicalIntelligence.analyze_patient patient_data in
      save_insights clock 1 patient_id insights
    else ret tt
  else ret tt.

End PatientForm.

(** ** More of Python's [str] and the exceptions of the pages *)

(** The exceptions the page code can meet. *)
Inductive py_exception : Type :=
| ValueError (message : string)
| IndexError (message : string)
| StopIteration
| DatabaseError (e : RecordStore.sqlite_error).

(** A database function called from a page: what it raises is the
    page's to raise, and the page goes on with the database it left. *)
Definition query {A : Type} (m : RecordStore.DB A) (db : RecordStore.database)
  : py_exception + A :=
  match fst (m db) with
  | inl e => inl (DatabaseError e)
  | inr a => inr a
  end.

(** The scan behind [s.split(sep)]: [piece] is the piece read so far and
    [skip] counts the characters of a separator just found that are still
    to be passed.  The separator is looked for at every position from the
    left, so the occurrences taken are the leftmost ones and do not
    overlap. *)
Fixpoint split_from (sep : string) (skip : nat) (piece : string) (s : string)
  : list string :=
  match s with
  | EmptyString => [piece]
  | String c s' =>
      match skip with
      | S skip' => split_from sep skip' piece s'
      | O =>
          if prefix sep s
          then piece :: split_from sep (String.length sep - 1) "" s'
          else split_from sep 0 (piece ++ String c "") s'
      end
  end.

(** [s.split(sep)]; an empty separator is refused. *)
Definition split (s sep : string) : py_exception + list string :=
  if sep =? "" then inl (ValueError "empty separator")
  else inr (split_from sep 0 "" s).

(** [c in chars]. *)
Fixpoint char_in (c : ascii) (chars : string) : bool :=
  match chars with
  | EmptyString => false
  | String d chars' => Ascii.eqb c d || char_in c chars'
  end.

(** [s.rstrip(chars)]: the trailing characters that are in [chars] go. *)
Fixpoint rstrip (s chars : string) : string :=
  match s with
  | EmptyString => EmptyString
  | String c s' =>
      match rstrip s' chars with
      | EmptyString => if char_in c chars then EmptyString else String c EmptyString
      | rest => String c rest
      end
  end.

(** [l[i]] for a position [i] counted from the front. *)
Definition list_index {A : Type} (l : list A) (i : nat) : py_exception + A :=
  match nth_error l i with
  | Some x => inr x
  | None => inl (IndexError "list index out of range")
  end.

(** [next(x for x in l if test(x))]. *)
Definition next_where {A : Type} (test : A -> bool) (l : list A) : py_exception + A :=
  match find test l with
  | Some x => inr x
  | None => inl StopIteration
  end.

(** ** The picker of [patient_analysis_page] ("Analyze Existing") *)

Module AnalyzeExisting.

(** One entry of [patient_options]: [f"{p[2]} (ID: {p[1]})"]. *)
Definition option_label (p : PatientRow.t) : string :=
  PatientRow.name p ++ " (ID: " ++ PatientRow.patient_id p ++ ")".

(** [selected.split("ID: ")[1].rstrip(")")]. *)
Definition parse_patient_id (selected : string) : py_exception + string :=
  match split selected "ID: " with
  | inl e => inl e
  | inr pieces =>
      match list_index pieces 1 with
      | inl e => inl e
      | inr piece => inr (rstrip piece ")")
      end
  end.

(** [next(p for p in patients if p[1] == patient_id)]. *)
Definition selected_patient (patients : list PatientRow.t) (patient_id : string)
  : py_exception + PatientRow.t :=
  next_where (fun p => PatientRow.patient_id p =? patient_id) patients.

(** The dict built from the selected row. *)
Definition patient_data_of (p : PatientRow.t) : PatientData.t :=
  PatientData.mk (Some (PatientRow.age p)) (Some (PatientRow.gender p))
    (Some (PatientRow.medical_history p)).

(** What the tab shows under its two headings. *)
Record analysis := mk_analysis {
  insights : list Insight.t;
  predictions : list Prediction.t
}.

(** The body under [with tab2].  [choice] is the position of the option
    picked in [st.selectbox] (the widget offers the positions of its list,
    and none when the list is empty); [run_clicked] is what
    [st.button("Run Intelligence Analysis")] returns.  The result is what
    is displayed, if anything, and the generator after the predictions. *)
Definition page (choice : nat) (run_clicked : bool)
    (db : RecordStore.database) (g : Random.t)
  : py_exception + (option analysis * Random.t) :=
  match query RecordStore.get_all_patients db with
  | inl e => inl e
  | inr [] => inr (None, g)
  | inr ((_ :: _) as patients) =>
      let patient_options := map option_label patients in
      match nth_error patient_options choice with
      | None => inr (None, g)
      | Some selected =>
          if truthy selected then
            match parse_patient_id selected with
            | inl e => inl e
            | inr patient_id =>
                match selected_patient patients patient_id with
                | inl e => inl e
                | inr row =>
                    if run_clicked then
                      let patient_data := patient_data_of row in
                      let insights :=
                        MedicalIntelligence.analyze_patient patient_data in
                      let (predictions, g) :=
                        MedicalIntelligence.predict_conditions patient_data g in
                      inr (Some (mk_analysis insights predictions), g)
                    else inr (None, g)
                end
            end
          else inr (None, g)
      end
  end.

End AnalyzeExisting.

(** ** [dashboard_page] *)

Module Dashboard.

(** What the page puts on the screen: the four metrics, the pie chart
    (drawn only if there is a patient) and the lines under "Recent
    Intelligence Insights". *)
Record view := mk_view {
  total_patients : nat;
  ai_analyses : nat;
  intelligence_insights : nat;
  accuracy_rate : string;
  distribution : option (list (string * Z));
  recent_insights : list string
}.

Definition dashboard_page (db : RecordStore.database) : py_exception + view :=
  match query RecordStore.get_all_patients db with
  | inl e => inl e
  | inr patients =>
  let intelligence_types :=
    [ "Risk Assessment"; "Diagnostic Intelligence"; "Preventive Care";
      "Treatment Optimization" ] in
  let values := [25; 30; 20; 25]%Z in
  let insights :=
    [ "High-risk cardiovascular profile detected in Patient MI-A1B2C3D4";
      "Preventive intervention recommended for Patient MI-E5F6G7H8";
      "Diagnostic pattern analysis completed for Patient MI-I9J0K1L2";
      "Treatment optimization suggested for Patient MI-M3N4O5P6" ] in
  inr (mk_view
    (List.length patients)
    (List.length patients * 3)
    (List.length patients * 5)
    "94.2%"
    (match patients with
     | [] => None
     | _ :: _ => Some (combine intelligence_types values)
     end)
    (map (fun insight : string => ("🧠 " ++ insight)%string) insights))
  end.

End Dashboard.

(** ** [main]: the sidebar and the choice of the page *)

Module Main.

(** The page functions [main] can call. *)
Inductive page_function : Type :=
| dashboard_page
| patient_analysis_page
| diagnostic_intelligence_page
| medical_insights_page.

(** [pages]: key and label of each navigation entry. *)
Definition pages : list (string * string) :=
  [ ("Intelligence Dashboard", "🏠 Intelligence Dashboard");
    ("Patient Analysis", "👤 Patient Analysis");
    ("Diagnostic Intelligence", "🧠 Diagnostic Intelligence");
    ("Medical Insights", "📊 Medical Insights") ].

(** The [for page_key, page_label in pages] loop: the entry of the current
    page is a plain label, every other entry is a button, and the first
    button found pressed names the page to go to.  [button key] is what
    [st.sidebar.button(..., key=key)] returns. *)
Fixpoint sidebar (pages : list (string * string)) (current_page : string)
    (button : string -> bool) : option string :=
  match pages with
  | [] => None
  | (page_key, page_label) :: rest =>
      if page_key =? current_page then sidebar rest current_page button
      else if button page_key then Some page_key
      else sidebar rest current_page button
  end.

(** The [if page == ... elif ...] chain at the end of [main]. *)
Definition dispatch (page : string) : option page_function :=
  if page =? "Intelligence Dashboard" then Some dashboard_page
  else if page =? "Patient Analysis" then Some patient_analysis_page
  else if page =? "Diagnostic Intelligence" then Some diagnostic_intelligence_page
  else if page =? "Medical Insights" then Some medical_insights_page
  else None.

(** How one run of the script ends: [st.rerun()] after a button, or the
    page function called, if any.  Either way it leaves the session state
    behind, which is the value under ['current_page']. *)
Inductive outcome : Type :=
| Rerun (current_page : string)
| Rendered (current_page : string) (page : option page_function).

(** [main]; [session_state] is [None] while the key ['current_page'] is
    not in [st.session_state]. *)
Definition main (session_state : option string) (button : string -> bool) : outcome :=
  let current_page :=
    match session_state with
    | None => "Intelligence Dashboard"
    | Some page => page
    end in
  match sidebar pages current_page button with
  | Some page_key => Rerun page_key
  | None => Rendered current_page (dispatch current_page)
  end.

(** The session state a run leaves. *)
Definition state_after (o : outcome) : option string :=
  match o with
  | Rerun current_page => Some current_page
  | Rendered current_page _ => Some current_page
  end.

(** One interaction of the user: the run it triggers, in which [button]
    tells the button pressed, and, if that run asks for it, the rerun, in
    which no button is pressed. *)
Definition interaction (session_state : option string) (button : string -> bool)
  : outcome :=
  match main session_state button with
  | Rerun current_page => main (Some current_page) (fun _ => false)
  | Rendered current_page page => Rendered current_page page
  end.

End Main.

(** ** [medical_insights_page] *)

Module MedicalInsights.

(** [insight_categories], in the order of the dict. *)
Definition insight_categories : list (string * list string) :=
  [ ("Preventive Intelligence",
     [ "Early intervention strategies for cardiovascular risk reduction";
       "Personalized screening recommendations based on genetic markers";
       "Lifestyle modification protocols for metabolic optimization" ]);
    ("Diagnostic Intelligence",
     [ "Multi-modal diagnostic pattern recognition";
       "Differential diagnosis probability ranking";
       "Symptom correlation analysis and interpretation" ]);
    ("Treatment Intelligence",
     [ "Personalized treatment protocol optimization";
       "Drug interaction and efficacy prediction";
       "Treatment response monitoring and adjustment" ]);
    ("Prognostic Intelligence",
     [ "Disease progression modeling and prediction";
       "Recovery timeline estimation and planning";
       "Long-term outcome probability assessment" ]) ].

(** [range(start, stop, step)] for a positive [step]: [count] numbers from
    [start], [step] apart. *)
Fixpoint range_count (count start step : nat) : list nat :=
  match count with
  | O => []
  | S count' => start :: range_count count' (start + step) step
  end.

Definition range (start stop step : nat) : list nat :=
  range_count ((stop - start + (step - 1)) / step) start step.

(** One category as displayed: its name, and each insight with the
    confidence drawn for it. *)
Definition block : Type := (string * list (string * Q))%type.

(** The [for insight in insights] loop: one draw of
    [random.uniform(0.8, 0.95)] per insight. *)
Fixpoint show_insights (insights : list string) (g : Random.t)
  : list (string * Q) * Random.t :=
  match insights with
  | [] => ([], g)
  | insight :: rest =>
      let (confidence, g) :=
        Random.uniform (Float64.literal 0.8) (Float64.literal 0.95) g in
      let (shown, g) := show_insights rest g in
      ((insight, confidence) :: shown, g)
  end.

(** A column: the loop over its positions; [guarded] is the test
    [if i < len(categories)] that the second column makes. *)
Fixpoint column (guarded : bool) (positions : list nat)
    (categories : list (string * list string)) (g : Random.t)
  : py_exception + (list block * Random.t) :=
  match positions with
  | [] => inr ([], g)
  | i :: rest =>
      if guarded && negb (i <? List.length categories)%nat
      then column guarded rest categories g
      else
        match list_index categories i with
        | inl e => inl e
        | inr (category, insights) =>
            let (shown, g) := show_insights insights g in
            match column guarded rest categories g with
            | inl e => inl e
            | inr (blocks, g) => inr ((category, shown) :: blocks, g)
            end
        end
  end.

(** The two columns of the page over [categories]. *)
Definition columns (categories : list (string * list string)) (g : Random.t)
  : py_exception + (list block * list block * Random.t) :=
  match column false (range 0 (List.length categories) 2) categories g with
  | inl e => inl e
  | inr (col1, g) =>
      match column true (range 1 (List.length categories) 2) categories g with
      | inl e => inl e
      | inr (col2, g) => inr (col1, col2, g)
      end
  end.

Definition medical_insights_page (g : Random.t)
  : py_exception + (list block * list block * Random.t) :=
  columns insight_categories g.

End MedicalInsights.

(** ** [run.py]: the launcher *)

Module Launcher.

(** How [subprocess.run(cmd)] ends: the child exits with a return code,
    or the call raises [KeyboardInterrupt], or it raises an exception of
    class [Exception] with the text [message]. *)
Inductive spawn : Type :=
| Completed (returncode : Z)
| KeyboardInterrupt
| Raised (message : string).

(** What a run of the script does: the lines it prints, the command it
    starts, if it starts one, and the status the process exits with. *)
Record run := mk_run {
  printed : list string;
  command : option (list string);
  exit_status : Z
}.

(** ["=" * n]. *)
Fixpoint repeat_char (c : ascii) (n : nat) : string :=
  match n with
  | O => EmptyString
  | S n' => String c (repeat_char c n')
  end.

(** [main]: [exists] is [os.path.exists("mediclin.py")], [executable] is
    [sys.executable], [child cmd] is how the command ends once started.
    [sys.exit(1)] gives status 1; a script that runs to its end gives
    status 0. *)
Definition main (exists_ : bool) (executable : string)
    (child : list string -> spawn) : run :=
  let banner := [ "🧠 Starting MediClin Platform..."; repeat_char "=" 50 ] in
  if negb exists_ then
    mk_run (banner ++ [ "❌ Error: mediclin.py not found" ]) None 1
  else
    let cmd :=
      [ executable; "-m"; "streamlit"; "run"; "mediclin.py";
        "--server.port"; "8501"; "--server.headless"; "true" ] in
    let announced :=
      banner ++
      [ "🚀 Launching MediClin...";
        "📍 Platform will be available at: http://localhost:8501";
        "🔄 Starting application..." ] in
    match child cmd with
    | Completed _ => mk_run announced (Some cmd) 0
    | KeyboardInterrupt =>
        mk_run (announced ++ [ String "010" "⏹️  MediClin Platform stopped by user" ])
          (Some cmd) 0
    | Raised e =>
        mk_run (announced ++ [ ("❌ Error starting platform: " ++ e)%string ])
          (Some cmd) 1
    end.

End Launcher.

(** * Vocabulary of the statements *)

(** The insights of a result whose ['type'] is [ty], in order. *)
Definition of_type (ty : string) (insights : list Insight.t) : list Insight.t :=
  filter (fun i => Insight.type i =? ty) insights.

(** The age and the gender the rules of [analyze_patient] are evaluated
    with: the value under the key, or the default of [dict.get]. *)
Definition rule_age (patient_data : PatientData.t) : Z :=
  dict_get (PatientData.age patient_data) 50%Z.

Definition rule_gender (patient_data : PatientData.t) : string :=
  dict_get (PatientData.gender patient_data) "Unknown".

(** The greatest output of [random.random()], [1 - 2^-53]. *)
Definition greatest_output : Q := Qmake (2 ^ 53 - 1) (2 ^ 53).

(** A prediction's label against the thresholds 0.7 and 0.4, which are
    the floats of these literals. *)
Definition labelled_by_thresholds (p : Prediction.t) : Prop :=
  let c := Prediction.confidence p in
  let high := Float64.literal 0.7 in
  let medium := Float64.literal 0.4 in
  ((high < c)%Q -> Prediction.risk_level p = "High") /\
  ((c <= high)%Q -> (medium < c)%Q -> Prediction.risk_level p = "Medium") /\
  ((c <= medium)%Q -> Prediction.risk_level p = "Low").

(** A prediction's confidence lies in the half-open interval [0.1, 0.9),
    both between the decimals 0.1 and 0.9 and between the floats of these
    literals. *)
Definition confidence_in_range (p : Prediction.t) : Prop :=
  let c := Prediction.confidence p in
  ((0.1 <= c)%Q /\ (c < 0.9)%Q) /\
  ((Float64.literal 0.1 <= c)%Q /\ (c < Float64.literal 0.9)%Q).

(** [a] may stand before [b] in a list sorted by descending confidence. *)
Definition confidence_ge (a b : Prediction.t) : Prop :=
  (Prediction.confidence b <= Prediction.confidence a)%Q.

(** Every character of [s] passes the test [P]. *)
Fixpoint all_chars (P : ascii -> bool) (s : string) : bool :=
  match s with
  | EmptyString => true
  | String c s' => P c && all_chars P s'
  end.

(** A digit of ['%x']: 0 to 9 or a to f. *)
Definition is_lower_hex (c : ascii) : bool :=
  let n := nat_of_ascii c in
  ((48 <=? n) && (n <=? 57) || (97 <=? n) && (n <=? 102))%nat.

(** A digit of ['%X']: 0 to 9 or A to F. *)
Definition is_upper_hex (c : ascii) : bool :=
  let n := nat_of_ascii c in
  ((48 <=? n) && (n <=? 57) || (65 <=? n) && (n <=? 70))%nat.

(** [str.isalnum] on an ASCII character: a digit or a letter. *)
Definition is_alnum (c : ascii) : bool :=
  let n := nat_of_ascii c in
  ((48 <=? n) && (n <=? 57) || (65 <=? n) && (n <=? 90)
   || (97 <=? n) && (n <=? 122))%nat.

(** 'MI-' followed by eight alphanumeric characters. *)
Definition id_pattern (s : string) : Prop :=
  exists suffix : string,
    s = ("MI-" ++ suffix)%string /\ String.length suffix = 8%nat
    /\ all_chars is_alnum suffix = true.

(** No row of [patients] carries [patient_id]. *)
Definition patient_id_unused (patient_id : string) (db : RecordStore.database) : Prop :=
  Forall (fun row => PatientRow.patient_id row <> patient_id)
    (RecordStore.patients db).

(** Every row of [patients] was created before [now]. *)
Definition created_before (now : Z) (db : RecordStore.database) : Prop :=
  Forall (fun row => (PatientRow.created_at row < now)%Z)
    (RecordStore.patients db).

(** One call of [add_patient]: what it draws, the clock it sees, and its
    arguments. *)
Record add_call := mk_add_call {
  call_urandom : N;
  call_now : Z;
  call_name : string;
  call_age : Z;
  call_gender : string;
  call_medical_history : string
}.

Definition run_add (c : add_call) : RecordStore.DB string :=
  RecordStore.add_patient (call_urandom c) (call_now c)
    (call_name c) (call_age c) (call_gender c) (call_medical_history c).

(** The row that [add_patient] inserts. *)
Definition inserted_row (c : add_call) (db : RecordStore.database) : PatientRow.t :=
  PatientRow.mk
    (RecordStore.next_id (map PatientRow.id (RecordStore.patients db)))
    (RecordStore.new_patient_id (call_urandom c)) (call_name c) (call_age c)
    (call_gender c) (call_medical_history c) (call_now c).

(** [add_patient] returns an identifier of the pattern, and the listing
    asked for next has the added patient as its first row. *)
Definition added_and_listed_first (c : add_call) (db : RecordStore.database) : Prop :=
  exists patient_id db' row rest,
    run_add c db = (inr patient_id, db') /\
    id_pattern patient_id /\
    RecordStore.get_all_patients db' = (inr (row :: rest), db') /\
    PatientRow.name row = call_name c /\
    PatientRow.age row = call_age c /\
    PatientRow.gender row = call_gender c /\
    PatientRow.medical_history row = call_medical_history c.


(** ** Sample inputs *)

(** A generator whose first six outputs are 0, the greatest output
    [1 - 2^-53], 0.5, 0.5, 0.375 and 0.75. *)
Definition sample_generator : Random.t :=
  Random.mk
    (fun n =>
       match n with
       | 0%nat => 0
       | 1%nat => 2 ^ 53 - 1
       | 2%nat => 2 ^ 52
       | 3%nat => 2 ^ 52
       | 4%nat => 3 * 2 ^ 50
       | _ => 3 * 2 ^ 51
       end%Z)
    0.

Definition empty_database : RecordStore.database := RecordStore.init_database None.

(** The call of the example: [add_patient("Jane Doe", 70, "Female", "none")]. *)
Definition jane_doe (urandom : N) (now : Z) : add_call :=
  mk_add_call urandom now "Jane Doe" 70 "Female" "none".

(** Two calls made within the same second, 2025-11-03 17:13:20 UTC. *)
Definition john_roe_call : add_call :=
  mk_add_call 0x3f2b8c1d9e4a47c6b5d0a1e2f3c4d5e6 1762190000
    "John Roe" 41 "Male" "asthma".

Definition jane_doe_call : add_call :=
  jane_doe 0x9a7c4e215b3d4f608e1a2c3d4e5f6071 1762190000.

(** The store after [john_roe_call] on a new file. *)
Definition database_with_john : RecordStore.database :=
  snd (run_add john_roe_call empty_database).


(** ** Vocabulary of the further properties *)

(** The rank of a risk label: 'High' above 'Medium' above 'Low'. *)
Definition risk_rank (risk_level : string) : nat :=
  if risk_level =? "High" then 2
  else if risk_level =? "Medium" then 1
  else 0.

(** [a] may stand before [b] in a list of falling risk. *)
Definition risk_ge (a b : Prediction.t) : Prop :=
  (risk_rank (Prediction.risk_level b) <= risk_rank (Prediction.risk_level a))%nat.

(** The six predictions of the loop of [predict_conditions], before they
    are sorted and cut. *)
Definition all_predictions (g : Random.t) : list Prediction.t :=
  fst (MedicalIntelligence.predict_loop MedicalIntelligence.conditions [] g).

(** 'MI-' followed by eight of the digits 0 to 9 and A to F. *)
Definition hex_id_pattern (s : string) : Prop :=
  exists suffix : string,
    s = ("MI-" ++ suffix)%string /\ String.length suffix = 8%nat
    /\ all_chars is_upper_hex suffix = true.

(** One submission of the patient form: the values of its widgets, and
    what the run draws and reads from the clock. *)
Record submission := mk_submission {
  form_submitted : bool;
  form_name : string;
  form_age : Z;
  form_gender : string;
  form_medical_history : string;
  form_urandom : N;
  form_clock : nat -> Z
}.

Definition submit (s : submission) : RecordStore.DB unit :=
  PatientForm.on_submit (form_submitted s) (form_name s) (form_age s)
    (form_gender s) (form_medical_history s) (form_urandom s) (form_clock s).

(** What can be done to the store: a call of either writing function, or
    a submission of the form, which calls them both. *)
Inductive action : Type :=
| AddPatient (c : add_call)
| SaveInsight (now : Z) (patient_id insight_type insight_text : string)
    (confidence : Q)
| SubmitForm (s : submission).

(** The store an action leaves, whether it returns or raises. *)
Definition perform (db : RecordStore.database) (a : action) : RecordStore.database :=
  match a with
  | AddPatient c => snd (run_add c db)
  | SaveInsight now patient_id insight_type insight_text confidence =>
      snd (RecordStore.save_intelligence_insight now patient_id insight_type
             insight_text confidence db)
  | SubmitForm s => snd (submit s db)
  end.

(** The store after a sequence of actions on a new file. *)
Definition store_after (actions : list action) : RecordStore.database :=
  fold_left perform actions empty_database.

(** The row ids 1, 2, ..., one per row. *)
Definition ids_from_one (ids : list Z) : Prop :=
  ids = map Z.of_nat (seq 1 (List.length ids)).

(** What [get_all_patients] returns on [db]. *)
Definition listing (db : RecordStore.database) : list PatientRow.t :=
  sort_desc Z.gtb PatientRow.created_at (RecordStore.patients db).

(** [a] may stand before [b] in a listing: it was not created earlier. *)
Definition created_ge (a b : PatientRow.t) : Prop :=
  (PatientRow.created_at b <= PatientRow.created_at a)%Z.

(** What holds of the store whatever is done to it. *)
Definition store_invariant (db : RecordStore.database) : Prop :=
  NoDup (map PatientRow.patient_id (RecordStore.patients db)) /\
  Forall hex_id_pattern (map PatientRow.patient_id (RecordStore.patients db)) /\
  ids_from_one (map PatientRow.id (RecordStore.patients db)) /\
  ids_from_one (map InsightRow.id (RecordStore.intelligence_insights db)) /\
  RecordStore.medical_data db = [].

(** What an insight row stores of an insight, beside its row id and its
    time: the patient, the type, the text and the confidence. *)
Definition stored (row : InsightRow.t) : string * string * string * Q :=
  (InsightRow.patient_id row, InsightRow.insight_type row,
   InsightRow.insight_text row, InsightRow.confidence row).

(** The same four values for an insight of the engine and a patient. *)
Definition to_store (patient_id : string) (i : Insight.t)
  : string * string * string * Q :=
  (patient_id, Insight.type i, Insight.insight i, Insight.confidence i).

(** The store after a sequence of submissions of the form on a new file:
    what the application itself can bring about. *)
Definition store_after_forms (submissions : list submission) : RecordStore.database :=
  store_after (map SubmitForm submissions).

(** [sep in s]: [sep] occurs somewhere in [s]. *)
Fixpoint occurs (sep s : string) : bool :=
  prefix sep s ||
  match s with
  | EmptyString => false
  | String _ s' => occurs sep s'
  end.




(** The session state after a sequence of interactions on a new session,
    each given by what its buttons return. *)
Definition session_after (buttons : list (string -> bool)) : option string :=
  fold_left (fun session button => Main.state_after (Main.interaction session button))
    buttons None.

(** The buttons when the user presses the one of key [key] and no other. *)
Definition press (key : string) : string -> bool := fun k => k =? key.

(** The command the launcher starts. *)
Definition streamlit_command (executable : string) : list string :=
  [ executable; "-m"; "streamlit"; "run"; "mediclin.py";
    "--server.port"; "8501"; "--server.headless"; "true" ].

(** Every second element of a list, from the first. *)
Fixpoint alternate {A : Type} (l : list A) : list A :=
  match l with
  | [] => []
  | x :: rest =>
      x :: match rest with
           | [] => []
           | _ :: rest' => alternate rest'
           end
  end.

(** A category as a block shows it: its name and its insights, without
    the confidences. *)
Definition shown_category (b : MedicalInsights.block) : string * list string :=
  (fst b, map fst (snd b)).

(** A confidence from 0.8 to 0.95: between the decimals, and between the
    floats of these literals, of which the upper one may be reached. *)
Definition shown_in_range (shown : string * Q) : Prop :=
  ((0.8 <= snd shown)%Q /\ (snd shown < 0.95)%Q) /\
  ((Float64.literal 0.8 <= snd shown)%Q /\ (snd shown <= Float64.literal 0.95)%Q).

(** Every confidence of a block lies in that range. *)
Definition block_in_range (b : MedicalInsights.block) : Prop :=
  Forall shown_in_range (snd b).

(** The number of insights of a list of categories. *)
Definition insight_count (categories : list (string * list string)) : nat :=
  list_sum (map (fun c => List.length (snd c)) categories).

(** ['%0<width>x' % n]: the digits of [n], padded with zeros on the left
    up to [width] characters; [UUID.format_032x] is the case of width 32. *)
Definition format_padded (width : nat) (n : N) : string :=
  UUID.zeros (width - String.length (UUID.format_x n)) ++ UUID.format_x n.

(** The hexadecimal digit of a number below sixteen, as ['%x'] writes it. *)
Definition hex_digit (d : N) : ascii :=
  match d with
  | 0 => "0" | 1 => "1" | 2 => "2" | 3 => "3" | 4 => "4" | 5 => "5"
  | 6 => "6" | 7 => "7" | 8 => "8" | 9 => "9" | 10 => "a" | 11 => "b"
  | 12 => "c" | 13 => "d" | 14 => "e" | _ => "f"
  end%N%char.

(** The last [k] hexadecimal digits of [n], the most significant first. *)
Fixpoint hex_fixed (k : nat) (n : N) : string :=
  match k with
  | O => EmptyString
  | S k' => hex_fixed k' (n / 16) ++ String (hex_digit (n mod 16)) EmptyString
  end.

(** * Properties *)

(** ** [analyze_patient] *)

Section AnalyzePatient.
Import MedicalIntelligence.

(** The three rules, as a function of the two values they read. *)
Lemma analyze_patient_rules (p : PatientData.t) :
  analyze_patient p =
    (if (rule_age p >? 65)%Z then [risk_assessment] else []) ++
    (if (rule_gender p =? "Male") && (rule_age p >? 45)%Z
     then [cardiovascular_intelligence] else []) ++
    [preventive_intelligence].
Proof.
  unfold analyze_patient, rule_age, rule_gender.
  destruct (dict_get (PatientData.age p) 50 >? 65)%Z;
    destruct ((dict_get (PatientData.gender p) "Unknown" =? "Male")
              && (dict_get (PatientData.age p) 50 >? 45)%Z);
    reflexivity.
Qed.

Ltac rule_cases p :=
  rewrite (analyze_patient_rules p);
  destruct (Z.gtb_spec (rule_age p) 65);
  destruct (String.eqb_spec (rule_gender p) "Male");
  destruct (Z.gtb_spec (rule_age p) 45);
  cbn.

(** C2: the result holds one 'Cardiovascular Intelligence' insight, of
    confidence 0.78, when the gender is "Male" and the age exceeds 45, and
    none for any other gender and age. *)
Theorem analyze_patient_cardiovascular (p : PatientData.t) :
  (rule_gender p = "Male" /\ (rule_age p > 45)%Z ->
   exists i, of_type "Cardiovascular Intelligence" (analyze_patient p) = [i]
             /\ Insight.confidence i = 0.78%Q) /\
  (~ (rule_gender p = "Male" /\ (rule_age p > 45)%Z) ->
   of_type "Cardiovascular Intelligence" (analyze_patient p) = []).
Proof.
  rule_cases p; split; intros Hrule;
    try (exists cardiovascular_intelligence; split; reflexivity);
    try reflexivity;
    solve [ destruct Hrule; (contradiction || lia)
          | exfalso; apply Hrule; split; (assumption || lia) ].
Qed.

(** C3: the result holds one 'Risk Assessment' insight, of confidence
    0.85, when the age exceeds 65, and none otherwise. *)
Theorem analyze_patient_risk_assessment (p : PatientData.t) :
  ((rule_age p > 65)%Z ->
   exists i, of_type "Risk Assessment" (analyze_patient p) = [i]
             /\ Insight.confidence i = 0.85%Q) /\
  (~ (rule_age p > 65)%Z ->
   of_type "Risk Assessment" (analyze_patient p) = []).
Proof.
  rule_cases p; split; intros Hrule;
    try (exists risk_assessment; split; reflexivity);
    try reflexivity; lia.
Qed.

(** C4: whatever the input, the result holds one 'Preventive
    Intelligence' insight, of confidence 0.90. *)
Theorem analyze_patient_preventive (p : PatientData.t) :
  exists i, of_type "Preventive Intelligence" (analyze_patient p) = [i]
            /\ Insight.confidence i = 0.90%Q.
Proof.
  exists preventive_intelligence.
  rule_cases p; split; reflexivity.
Qed.

(** C9: two inputs with the same age and gender entries get the same
    result, whatever their medical histories. *)
Theorem analyze_patient_ignores_history (p1 p2 : PatientData.t) :
  PatientData.age p1 = PatientData.age p2 ->
  PatientData.gender p1 = PatientData.gender p2 ->
  analyze_patient p1 = analyze_patient p2.
Proof.
  intros Hage Hgender.
  rewrite !analyze_patient_rules. unfold rule_age, rule_gender.
  rewrite Hage, Hgender. reflexivity.
Qed.

(** Two patients of 70, male, one with no history and one with angina. *)
Lemma analyze_patient_ignores_history_witness :
  analyze_patient (PatientData.mk (Some 70%Z) (Some "Male") (Some "none"))
  = analyze_patient (PatientData.mk (Some 70%Z) (Some "Male") (Some "angina, 2019")).
Proof.
  apply (analyze_patient_ignores_history
           (PatientData.mk (Some 70%Z) (Some "Male") (Some "none"))
           (PatientData.mk (Some 70%Z) (Some "Male") (Some "angina, 2019")));
    reflexivity.
Defined.

(** C10: a missing age is read as 50 and a missing gender as 'Unknown';
    with both missing the result is the 'Preventive Intelligence' insight
    alone. *)
Theorem analyze_patient_defaults (gender history : option string) (age : option Z) :
  analyze_patient (PatientData.mk None gender history)
    = analyze_patient (PatientData.mk (Some 50%Z) gender history) /\
  analyze_patient (PatientData.mk age None history)
    = analyze_patient (PatientData.mk age (Some "Unknown") history) /\
  analyze_patient (PatientData.mk None None history) = [preventive_intelligence].
Proof.
  repeat split; reflexivity.
Qed.

End AnalyzePatient.

(** ** Comparison of floats *)

Lemma Qgtb_true (x y : Q) : Qgtb x y = true <-> (y < x)%Q.
Proof.
  unfold Qgtb. rewrite negb_true_iff. split.
  - intros Hb. apply Qnot_le_lt. intros Hle.
    apply Qle_bool_iff in Hle. congruence.
  - intros Hlt. destruct (Qle_bool x y) eqn:E; [|reflexivity].
    apply Qle_bool_iff in E. exfalso. exact (Qlt_not_le _ _ Hlt E).
Qed.

Lemma Qgtb_false (x y : Q) : Qgtb x y = false <-> (x <= y)%Q.
Proof.
  unfold Qgtb. rewrite negb_false_iff. apply Qle_bool_iff.
Qed.

(** ** The stable descending sort *)

Section SortDescendingFacts.
Context {A K : Type}.
Variable gtb : K -> K -> bool.
Variable key : A -> K.

(** [a] may stand before [b]: the key of [b] is not the greater. *)
Let before (a b : A) : Prop := gtb (key b) (key a) = false.

Hypothesis gtb_asym : forall j k, gtb j k = true -> gtb k j = false.

Lemma insert_desc_length (x : A) (l : list A) :
  List.length (insert_desc gtb key x l) = S (List.length l).
Proof.
  induction l as [|y l IH]; cbn; [reflexivity|].
  destruct (gtb (key y) (key x)); cbn; [rewrite IH|]; reflexivity.
Qed.

Lemma sort_desc_length (l : list A) :
  List.length (sort_desc gtb key l) = List.length l.
Proof.
  induction l as [|x l IH]; cbn; [reflexivity|].
  rewrite insert_desc_length, IH. reflexivity.
Qed.

Lemma insert_desc_perm (x : A) (l : list A) :
  Permutation (x :: l) (insert_desc gtb key x l).
Proof.
  induction l as [|y l IH]; cbn; [apply Permutation_refl|].
  destruct (gtb (key y) (key x)); [|apply Permutation_refl].
  eapply perm_trans; [apply perm_swap|]. apply perm_skip, IH.
Qed.

Lemma sort_desc_perm (l : list A) : Permutation l (sort_desc gtb key l).
Proof.
  induction l as [|x l IH]; cbn; [apply perm_nil|].
  eapply perm_trans; [apply perm_skip, IH|]. apply insert_desc_perm.
Qed.

Lemma sort_desc_Forall (P : A -> Prop) (l : list A) :
  Forall P l -> Forall P (sort_desc gtb key l).
Proof.
  intros HP. rewrite Forall_forall in *. intros y Hy. apply HP.
  eapply Permutation_in; [apply Permutation_sym, sort_desc_perm|exact Hy].
Qed.

Lemma insert_desc_HdRel (a x : A) (l : list A) :
  before a x -> HdRel before a l -> HdRel before a (insert_desc gtb key x l).
Proof.
  intros Hax Hal. destruct l as [|y l]; cbn; [constructor; exact Hax|].
  destruct (gtb (key y) (key x)); constructor.
  - inversion Hal; assumption.
  - exact Hax.
Qed.

Lemma insert_desc_Sorted (x : A) (l : list A) :
  Sorted before l -> Sorted before (insert_desc gtb key x l).
Proof.
  induction l as [|y l IH]; intros Hs; cbn.
  - repeat constructor.
  - inversion Hs as [|? ? Hl Hhd]; subst.
    destruct (gtb (key y) (key x)) eqn:E.
    + constructor; [apply IH, Hl|].
      apply insert_desc_HdRel; [apply gtb_asym, E|exact Hhd].
    + constructor; [exact Hs|]. constructor. exact E.
Qed.

Lemma sort_desc_Sorted (l : list A) : Sorted before (sort_desc gtb key l).
Proof.
  induction l as [|x l IH]; cbn; [constructor|].
  apply insert_desc_Sorted, IH.
Qed.

End SortDescendingFacts.

Lemma firstn_In {A : Type} (n : nat) (l : list A) (y : A) :
  In y (firstn n l) -> In y l.
Proof.
  revert n. induction l as [|x l IH]; intros n Hy.
  - rewrite firstn_nil in Hy. exact Hy.
  - destruct n as [|n]; cbn in Hy; [contradiction|].
    destruct Hy as [Hy|Hy]; [left; exact Hy|right; eapply IH, Hy].
Qed.

Lemma StronglySorted_firstn {A : Type} (R : A -> A -> Prop) (n : nat) (l : list A) :
  StronglySorted R l -> StronglySorted R (firstn n l).
Proof.
  revert n. induction l as [|x l IH]; intros n Hs.
  - rewrite firstn_nil. constructor.
  - destruct n as [|n]; cbn; [constructor|].
    inversion Hs as [|? ? Hl Hall]; subst.
    constructor; [apply IH, Hl|].
    rewrite Forall_forall in *. intros y Hy. apply Hall.
    eapply firstn_In, Hy.
Qed.

Lemma Forall_firstn_of {A : Type} (P : A -> Prop) (n : nat) (l : list A) :
  Forall P l -> Forall P (firstn n l).
Proof.
  rewrite !Forall_forall. intros HP y Hy. apply HP.
  eapply firstn_In, Hy.
Qed.

(** ** Rounding to binary64 *)

Section Float64Facts.
Local Open Scope Q_scope.

Lemma two_power_pos (e : Z) : 0 < 2 ^ e.
Proof. apply Qpower_0_lt. reflexivity. Qed.

Lemma two_power_plus (a b : Z) : 2 ^ (a + b) == 2 ^ a * 2 ^ b.
Proof. apply Qpower_plus. discriminate. Qed.

Lemma two_power_le (a b : Z) : (a <= b)%Z -> 2 ^ a <= 2 ^ b.
Proof. intros H. apply Qpower_le_compat_l; [exact H|discriminate]. Qed.

Lemma two_power_inject (n : Z) : (0 <= n)%Z -> inject_Z (2 ^ n) == 2 ^ n.
Proof. intros H. rewrite Zpower_Qpower by exact H. reflexivity. Qed.

(** [binade x] is the exponent of [x]. *)
Lemma binade_spec (x : Q) :
  0 < x -> 2 ^ Float64.binade x <= x /\ x < 2 ^ (Float64.binade x + 1).
Proof.
  intros Hx. destruct x as [n d]. unfold Float64.binade. cbn [Qnum Qden].
  assert (Hn : (0 < n)%Z).
  { unfold Qlt in Hx. cbn in Hx. lia. }
  set (ln := Z.log2 n). set (ld := Z.log2 (Z.pos d)).
  assert (Hln : (2 ^ ln <= n < 2 ^ (ln + 1))%Z).
  { replace (ln + 1)%Z with (Z.succ ln) by lia. apply Z.log2_spec. exact Hn. }
  assert (Hld : (2 ^ ld <= Z.pos d < 2 ^ (ld + 1))%Z).
  { replace (ld + 1)%Z with (Z.succ ld) by lia. apply Z.log2_spec. lia. }
  assert (H0n : (0 <= ln)%Z) by apply Z.log2_nonneg.
  assert (H0d : (0 <= ld)%Z) by apply Z.log2_nonneg.
  assert (Qn : 2 ^ ln <= inject_Z n /\ inject_Z n < 2 ^ (ln + 1)).
  { rewrite <- !two_power_inject by lia. rewrite <- Zle_Qle, <- Zlt_Qlt. exact Hln. }
  assert (Qd : 2 ^ ld <= inject_Z (Z.pos d) /\ inject_Z (Z.pos d) < 2 ^ (ld + 1)).
  { rewrite <- !two_power_inject by lia. rewrite <- Zle_Qle, <- Zlt_Qlt. exact Hld. }
  assert (Hx' : (n # d) * inject_Z (Z.pos d) == inject_Z n).
  { unfold Qeq, Qmult, inject_Z. cbn. lia. }
  assert (Hdpos : 0 < inject_Z (Z.pos d)) by (unfold Qlt; cbn; lia).
  assert (Hup : n # d < 2 ^ (ln - ld + 1)).
  { apply Qmult_lt_r with (z := inject_Z (Z.pos d)); [exact Hdpos|].
    rewrite Hx'. apply Qlt_le_trans with (y := 2 ^ (ln + 1)); [apply Qn|].
    replace (ln + 1)%Z with ((ln - ld + 1) + ld)%Z by lia.
    rewrite two_power_plus. apply Qmult_le_l; [apply two_power_pos|apply Qd]. }
  assert (Hlow : 2 ^ (ln - ld - 1) < n # d).
  { apply Qmult_lt_r with (z := inject_Z (Z.pos d)); [exact Hdpos|].
    rewrite Hx'. apply Qlt_le_trans with (y := 2 ^ ln); [|apply Qn].
    replace ln with ((ln - ld - 1) + (ld + 1))%Z at 2 by lia.
    rewrite two_power_plus. apply Qmult_lt_l; [apply two_power_pos|apply Qd]. }
  destruct (Qle_bool (2 ^ (ln - ld)) (n # d)) eqn:E.
  - apply Qle_bool_iff in E. split; assumption.
  - assert (Hlt : n # d < 2 ^ (ln - ld)).
    { apply Qnot_le_lt. intros Hle. apply Qle_bool_iff in Hle. congruence. }
    split; [apply Qlt_le_weak; exact Hlow|].
    replace (ln - ld - 1 + 1)%Z with (ln - ld)%Z by lia. exact Hlt.
Qed.

(** A smaller number has no larger exponent. *)
Lemma binade_monotone (x y : Q) :
  0 < x -> x <= y -> (Float64.binade x <= Float64.binade y)%Z.
Proof.
  intros Hx Hxy.
  assert (Hy : 0 < y) by (apply Qlt_le_trans with (y := x); assumption).
  destruct (binade_spec x Hx) as [Hlo _]. destruct (binade_spec y Hy) as [_ Hhi].
  assert (H : 2 ^ Float64.binade x < 2 ^ (Float64.binade y + 1)).
  { apply Qle_lt_trans with (y := x); [exact Hlo|].
    apply Qle_lt_trans with (y := y); assumption. }
  apply Qpower_lt_compat_l_inv in H; [lia|reflexivity].
Qed.

Lemma nearest_even_cases (q : Q) :
  Float64.nearest_even q = Qfloor q \/ Float64.nearest_even q = (Qfloor q + 1)%Z.
Proof.
  unfold Float64.nearest_even.
  destruct (q - inject_Z (Qfloor q) ?= 1 # 2); [destruct (Z.even (Qfloor q))| |]; auto.
Qed.

Lemma nearest_even_monotone (p q : Q) :
  p <= q -> (Float64.nearest_even p <= Float64.nearest_even q)%Z.
Proof.
  intros Hpq. pose proof (Qfloor_resp_le p q Hpq) as Hf.
  destruct (Z.eq_dec (Qfloor p) (Qfloor q)) as [Heq|Hne].
  - unfold Float64.nearest_even. rewrite Heq.
    destruct (Qcompare_spec (p - inject_Z (Qfloor q)) (1 # 2)) as [Hp|Hp|Hp];
      destruct (Qcompare_spec (q - inject_Z (Qfloor q)) (1 # 2)) as [Hq|Hq|Hq];
      try (destruct (Z.even (Qfloor q))); try lia; exfalso; lra.
  - destruct (nearest_even_cases p) as [-> | ->], (nearest_even_cases q) as [-> | ->]; lia.
Qed.

Lemma nearest_even_integer (n : Z) : Float64.nearest_even (inject_Z n) = n.
Proof.
  unfold Float64.nearest_even. rewrite Qfloor_Z.
  destruct (Qcompare_spec (inject_Z n - inject_Z n) (1 # 2)) as [H|H|H];
    [exfalso; lra | reflexivity | exfalso; lra].
Qed.

Lemma quantum_pos (x : Q) : 0 < Float64.quantum x.
Proof. apply two_power_pos. Qed.

Lemma round_positive_nonneg (x : Q) : 0 < x -> 0 <= Float64.round_positive x.
Proof.
  intros Hx. unfold Float64.round_positive.
  apply Qmult_le_0_compat; [|apply Qlt_le_weak, quantum_pos].
  change 0 with (inject_Z 0). rewrite <- Zle_Qle.
  rewrite <- (nearest_even_integer 0). apply nearest_even_monotone.
  apply Qle_shift_div_l; [apply quantum_pos|]. change (inject_Z 0) with 0. lra.
Qed.

(** Rounding keeps the order of the positive numbers. *)
Lemma round_positive_monotone (x y : Q) :
  0 < x -> x <= y -> Float64.round_positive x <= Float64.round_positive y.
Proof.
  intros Hx Hxy.
  assert (Hy : 0 < y) by (apply Qlt_le_trans with (y := x); assumption).
  pose proof (binade_monotone x y Hx Hxy) as Hb.
  destruct (binade_spec x Hx) as [_ Hxhi]. destruct (binade_spec y Hy) as [Hylo _].
  unfold Float64.round_positive, Float64.quantum.
  set (ex := Z.max (Float64.binade x) (-1022)). set (ey := Z.max (Float64.binade y) (-1022)).
  destruct (Z.eq_dec ex ey) as [Heq|Hne].
  - rewrite Heq. apply Qmult_le_compat_r; [|apply Qlt_le_weak, two_power_pos].
    rewrite <- Zle_Qle. apply nearest_even_monotone.
    apply Qmult_le_compat_r; [exact Hxy|].
    apply Qlt_le_weak, Qinv_lt_0_compat, two_power_pos.
  - assert (Hlt : (ex < ey)%Z) by lia.
    assert (Hey : ey = Float64.binade y) by lia.
    apply Qle_trans with (y := 2 ^ ey).
    + apply Qle_trans with (y := inject_Z (2 ^ 53) * 2 ^ (ex - 52)).
      * apply Qmult_le_compat_r; [|apply Qlt_le_weak, two_power_pos].
        rewrite <- Zle_Qle. rewrite <- (nearest_even_integer (2 ^ 53)).
        apply nearest_even_monotone.
        apply Qle_shift_div_r; [apply two_power_pos|].
        rewrite two_power_inject by lia. rewrite <- two_power_plus.
        apply Qlt_le_weak, Qlt_le_trans with (y := 2 ^ (Float64.binade x + 1)); [exact Hxhi|].
        apply two_power_le. lia.
      * rewrite two_power_inject by lia. rewrite <- two_power_plus.
        apply two_power_le. lia.
    + apply Qle_trans with (y := inject_Z (2 ^ 52) * 2 ^ (ey - 52)).
      * rewrite two_power_inject by lia. rewrite <- two_power_plus.
        apply two_power_le. lia.
      * apply Qmult_le_compat_r; [|apply Qlt_le_weak, two_power_pos].
        rewrite <- Zle_Qle. rewrite <- (nearest_even_integer (2 ^ 52)).
        apply nearest_even_monotone.
        apply Qle_shift_div_l; [apply two_power_pos|].
        rewrite two_power_inject by lia. rewrite <- two_power_plus.
        replace (52 + (ey - 52))%Z with (Float64.binade y) by lia. exact Hylo.
Qed.

Lemma round_of_positive (x : Q) : 0 < x -> Float64.round x = Float64.round_positive x.
Proof.
  intros Hx. unfold Float64.round. destruct x as [[|n|n] d]; cbn [Qnum];
    [unfold Qlt in Hx; cbn in Hx; lia | reflexivity | unfold Qlt in Hx; cbn in Hx; lia].
Qed.

Lemma round_of_zero (x : Q) : x == 0 -> Float64.round x = 0.
Proof.
  intros Hx. unfold Float64.round. destruct x as [[|n|n] d]; cbn [Qnum];
    [reflexivity | unfold Qeq in Hx; cbn in Hx; lia | unfold Qeq in Hx; cbn in Hx; lia].
Qed.

(** Rounding keeps the order of the numbers from 0 on. *)
Lemma round_monotone (x y : Q) :
  0 <= x -> x <= y -> Float64.round x <= Float64.round y.
Proof.
  intros Hx Hxy. destruct (Qlt_le_dec 0 x) as [Hpos|Hzero].
  - assert (Hy : 0 < y) by (apply Qlt_le_trans with (y := x); assumption).
    rewrite (round_of_positive x Hpos), (round_of_positive y Hy).
    apply round_positive_monotone; assumption.
  - rewrite (round_of_zero x) by (apply Qle_antisym; assumption).
    destruct (Qlt_le_dec 0 y) as [Hy|Hy].
    + rewrite (round_of_positive y Hy). apply round_positive_nonneg, Hy.
    + rewrite (round_of_zero y); [apply Qle_refl|].
      apply Qle_antisym; [exact Hy|]. apply Qle_trans with (y := x); assumption.
Qed.

End Float64Facts.

(** ** [random.uniform] *)

Section UniformFacts.
Local Open Scope Q_scope.

Lemma random_bounds (g : Random.t) :
  Random.in_unit_interval g ->
  0 <= fst (Random.random g) /\
  fst (Random.random g) <= greatest_output /\
  Random.in_unit_interval (snd (Random.random g)).
Proof.
  intros Hg. unfold Random.random, greatest_output. cbn [fst snd].
  destruct (Hg (Random.drawn g)) as [Hlo Hhi].
  split; [|split].
  - unfold Qle. cbn [Qnum Qden]. lia.
  - unfold Qle. cbn [Qnum Qden].
    apply Z.mul_le_mono_nonneg_r; [discriminate|].
    change (2 ^ 53)%Z with 9007199254740992%Z in Hhi.
    change (2 ^ 53 - 1)%Z with 9007199254740991%Z. lia.
  - intros n. apply Hg.
Qed.

(** One draw of [random.uniform(a, b)] lies between what the least and the
    greatest output of [random.random()] give. *)
Lemma uniform_between (a b : Q) (g : Random.t) :
  Random.in_unit_interval g ->
  0 <= a -> 0 <= Float64.sub b a ->
  Float64.round a <= fst (Random.uniform a b g) /\
  fst (Random.uniform a b g)
  <= Float64.add a (Float64.mul (Float64.sub b a) greatest_output) /\
  Random.in_unit_interval (snd (Random.uniform a b g)).
Proof.
  intros Hg Ha Hw. unfold Random.uniform.
  destruct (random_bounds g Hg) as (Hlo & Hhi & Hg').
  destruct (Random.random g) as [r g']. cbn [fst snd] in *.
  set (w := Float64.sub b a) in *.
  assert (Hm0 : 0 <= Float64.mul w r).
  { unfold Float64.mul. rewrite <- (round_of_zero 0) by reflexivity.
    apply round_monotone; [apply Qle_refl|]. apply Qmult_le_0_compat; assumption. }
  assert (Hm1 : Float64.mul w r <= Float64.mul w greatest_output).
  { unfold Float64.mul. apply round_monotone.
    - apply Qmult_le_0_compat; assumption.
    - rewrite !(Qmult_comm w). apply Qmult_le_compat_r; assumption. }
  split; [|split; [|exact Hg']]; unfold Float64.add; apply round_monotone; lra.
Qed.

End UniformFacts.

(** ** [predict_conditions] *)

Section PredictConditions.
Import MedicalIntelligence.

Lemma Qgtb_asym (x y : Q) : Qgtb x y = true -> Qgtb y x = false.
Proof.
  rewrite Qgtb_true, Qgtb_false. apply Qlt_le_weak.
Qed.

(** The floats of the literals of [predict_conditions], and what the least
    and the greatest output of [random.random()] give: the float 0.1 itself
    and the float just below the float 0.9, which is below the decimal
    0.9. *)
Lemma uniform_ends :
  (0 <= Float64.literal 0.1)%Q /\
  (0 <= Float64.sub (Float64.literal 0.9) (Float64.literal 0.1))%Q /\
  (0.1 <= Float64.literal 0.1)%Q /\
  (Float64.literal 0.1 <= Float64.round (Float64.literal 0.1))%Q /\
  (Float64.add (Float64.literal 0.1)
     (Float64.mul (Float64.sub (Float64.literal 0.9) (Float64.literal 0.1))
        greatest_output) < 0.9)%Q /\
  (0.9 < Float64.literal 0.9)%Q /\
  (Float64.literal 0.4 < Float64.literal 0.7)%Q.
Proof.
  repeat split;
    try (apply Qle_bool_imp_le; vm_compute; reflexivity);
    apply Qlt_alt; vm_compute; reflexivity.
Qed.

(** One draw of [random.uniform(0.1, 0.9)] stays in [0.1, 0.9). *)
Lemma uniform_in_range (g : Random.t) :
  Random.in_unit_interval g ->
  let c := fst (Random.uniform (Float64.literal 0.1) (Float64.literal 0.9) g) in
  ((0.1 <= c)%Q /\ (c < 0.9)%Q) /\
  ((Float64.literal 0.1 <= c)%Q /\ (c < Float64.literal 0.9)%Q) /\
  Random.in_unit_interval
    (snd (Random.uniform (Float64.literal 0.1) (Float64.literal 0.9) g)).
Proof.
  intros Hg.
  destruct uniform_ends as (Ha & Hw & Hdec & Hlow & Hhigh & Hlit & _).
  destruct (uniform_between _ _ g Hg Ha Hw) as (Hlo & Hhi & Hg').
  cbn zeta. split; [|split; [|exact Hg']]; split.
  - eapply Qle_trans; [exact Hdec|]. eapply Qle_trans; [exact Hlow|exact Hlo].
  - eapply Qle_lt_trans; [exact Hhi|exact Hhigh].
  - eapply Qle_trans; [exact Hlow|exact Hlo].
  - eapply Qle_lt_trans; [exact Hhi|]. eapply Qlt_trans; [exact Hhigh|exact Hlit].
Qed.

Lemma risk_level_of_thresholds (condition : string) (c : Q) :
  labelled_by_thresholds (Prediction.mk condition c (risk_level_of c)).
Proof.
  destruct uniform_ends as (_ & _ & _ & _ & _ & _ & Hlt).
  unfold labelled_by_thresholds, risk_level_of. cbn [Prediction.confidence Prediction.risk_level].
  cbn zeta.
  destruct (Qgtb c (Float64.literal 0.7)) eqn:E7;
    [apply Qgtb_true in E7 | apply Qgtb_false in E7];
    (destruct (Qgtb c (Float64.literal 0.4)) eqn:E4;
     [apply Qgtb_true in E4 | apply Qgtb_false in E4]);
    repeat split; intros; try reflexivity; exfalso; lra.
Qed.

(** The loop keeps what holds of every prediction it appends, and appends
    one prediction per condition. *)
Lemma predict_loop_invariant (conds : list string) :
  forall (predictions : list Prediction.t) (g : Random.t),
    Random.in_unit_interval g ->
    Forall confidence_in_range predictions ->
    Forall labelled_by_thresholds predictions ->
    let result := fst (predict_loop conds predictions g) in
    List.length result = (List.length predictions + List.length conds)%nat /\
    Forall confidence_in_range result /\
    Forall labelled_by_thresholds result.
Proof.
  induction conds as [|condition rest IH]; intros predictions g Hg Hrange Hlabel.
  - cbn. rewrite Nat.add_0_r. auto.
  - cbn [predict_loop].
    destruct (uniform_in_range g Hg) as (Hlo & Hhi & Hg').
    destruct (Random.uniform (Float64.literal 0.1) (Float64.literal 0.9) g)
      as [confidence g'] eqn:E.
    cbn [fst snd] in Hlo, Hhi, Hg'.
    specialize (IH (predictions ++ [Prediction.mk condition confidence
                                      (risk_level_of confidence)]) g' Hg').
    cbn zeta in IH. rewrite length_app in IH. cbn [List.length] in IH.
    destruct IH as (Hlen & Hr & Hl).
    + apply Forall_app. split; [exact Hrange|].
      constructor; [split; assumption|constructor].
    + apply Forall_app. split; [exact Hlabel|].
      constructor; [apply risk_level_of_thresholds|constructor].
    + cbn zeta. repeat split; try assumption. rewrite Hlen. cbn. lia.
Qed.

(** C1: whatever the patient, and whatever the generator yields,
    [predict_conditions] returns four predictions, each of confidence in
    [0.1, 0.9), in descending order of confidence, each labelled 'High'
    above 0.7, 'Medium' above 0.4 and 'Low' otherwise.  The confidences
    are the floats that [random.uniform] computes; they stay in the
    interval both of the decimals and of the floats 0.1 and 0.9, and the
    thresholds are the floats 0.7 and 0.4. *)
Theorem predict_conditions_four_sorted_labelled
    (patient_data : PatientData.t) (g : Random.t) :
  Random.in_unit_interval g ->
  List.length (fst (predict_conditions patient_data g)) = 4%nat /\
  Forall confidence_in_range (fst (predict_conditions patient_data g)) /\
  StronglySorted confidence_ge (fst (predict_conditions patient_data g)) /\
  Forall labelled_by_thresholds (fst (predict_conditions patient_data g)).
Proof.
  intros Hg. unfold predict_conditions.
  destruct (predict_loop_invariant conditions [] g Hg (Forall_nil _) (Forall_nil _))
    as (Hlen & Hrange & Hlabel).
  destruct (predict_loop conditions [] g) as [predictions g'].
  cbn [fst] in *. cbn in Hlen.
  repeat split.
  - rewrite length_firstn, sort_desc_length, Hlen. reflexivity.
  - apply Forall_firstn_of, sort_desc_Forall, Hrange.
  - apply StronglySorted_firstn, Sorted_StronglySorted.
    + intros a b c Hab Hbc. unfold confidence_ge in *.
      eapply Qle_trans; eassumption.
    + eapply Sorted_ind with (P := Sorted confidence_ge).
      * constructor.
      * intros a l _ IHl Hhd. constructor; [exact IHl|].
        destruct Hhd as [|b l' Hb]; constructor.
        apply Qgtb_false, Hb.
      * apply (sort_desc_Sorted Qgtb Prediction.confidence Qgtb_asym).
  - apply Forall_firstn_of, sort_desc_Forall, Hlabel.
Qed.

(** The four properties at [sample_generator], whose outputs are in
    [[0, 1)]. *)
Lemma predict_conditions_four_sorted_labelled_witness :
  List.length (fst (predict_conditions (PatientData.mk None None None) sample_generator))
  = 4%nat /\
  Forall confidence_in_range
    (fst (predict_conditions (PatientData.mk None None None) sample_generator)) /\
  StronglySorted confidence_ge
    (fst (predict_conditions (PatientData.mk None None None) sample_generator)) /\
  Forall labelled_by_thresholds
    (fst (predict_conditions (PatientData.mk None None None) sample_generator)).
Proof.
  apply (predict_conditions_four_sorted_labelled
           (PatientData.mk None None None) sample_generator).
  intros n. do 5 (destruct n as [|n]; [split; [discriminate|reflexivity]|]).
  split; [discriminate|reflexivity].
Defined.

(** The rounding of [Float64] against the binary64 arithmetic of the
    kernel: the six literals of the two calls of [random.uniform] and of
    the thresholds. *)
Example literals_agree_with_kernel :
  map (fun q => Some (Qred (Float64.literal q))) [0.1; 0.9; 0.7; 0.4; 0.8; 0.95]%Q
  = map (fun f => option_map Qred (Float64.of_prim f))
      [ 0x1.999999999999ap-4; 0x1.ccccccccccccdp-1; 0x1.6666666666666p-1;
        0x1.999999999999ap-2; 0x1.999999999999ap-1; 0x1.e666666666666p-1 ]%float.
Proof. vm_compute. reflexivity. Qed.

(** And [random.uniform(0.1, 0.9)] at the outputs 0, [1 - 2^-53], 0.5,
    0.375 and 0.75 of [random.random()]. *)
Example uniform_agrees_with_kernel :
  map (fun k =>
         Some (Qred (fst (Random.uniform (Float64.literal 0.1) (Float64.literal 0.9)
                            (Random.mk (fun _ => k) 0%nat)))))
    [0; 2 ^ 53 - 1; 2 ^ 52; 3 * 2 ^ 50; 3 * 2 ^ 51]%Z
  = map (fun r =>
           option_map Qred
             (Float64.of_prim
                (Random.uniform_binary64 0x1.999999999999ap-4 0x1.ccccccccccccdp-1 r)))
      [0; 0x1.fffffffffffffp-1; 0x1p-1; 0x1.8p-2; 0x1.8p-1]%float.
Proof. vm_compute. reflexivity. Qed.

(** The six predictions of the sample generator before they are sorted.
    The output 0.75 gives 0.7000000000000001, above the float 0.7 and so
    'High'; the output 0.375 gives the float 0.4 itself, which is not above
    it and so 'Low'; the greatest output gives 0.8999999999999999. *)
Example predict_loop_sample :
  map (fun p => (Qred (Prediction.confidence p), Prediction.risk_level p))
    (fst (predict_loop conditions [] sample_generator))
  = [ (3602879701896397 # 36028797018963968, "Low");
      (2026619832316723 # 2251799813685248, "High");
      (1 # 2, "Medium");
      (1 # 2, "Medium");
      (3602879701896397 # 9007199254740992, "Low");
      (6305039478318695 # 9007199254740992, "High") ]%Q.
Proof. vm_compute. reflexivity. Qed.

(** What the sample generator yields: the four largest of the six draws,
    the two equal ones in the order of [conditions]. *)
Example predict_conditions_sample :
  map (fun p => (Prediction.condition p, Prediction.risk_level p))
    (fst (predict_conditions (PatientData.mk None None None) sample_generator))
  = [ ("Diabetes Type 2", "High"); ("Metabolic Disorders", "High");
      ("Cardiovascular Disease", "Medium"); ("Respiratory Issues", "Medium") ].
Proof. reflexivity. Qed.

End PredictConditions.

(** ** Strings *)

Lemma all_chars_append (P : ascii -> bool) (s1 s2 : string) :
  all_chars P (s1 ++ s2) = all_chars P s1 && all_chars P s2.
Proof.
  induction s1 as [|c s1 IH]; cbn; [reflexivity|].
  rewrite IH, andb_assoc. reflexivity.
Qed.

Lemma all_chars_substring (P : ascii -> bool) (s : string) :
  all_chars P s = true -> forall n m, all_chars P (substring n m s) = true.
Proof.
  induction s as [|c s IH]; intros Hs n m.
  - destruct n, m; reflexivity.
  - cbn in Hs. apply andb_true_iff in Hs. destruct Hs as [Hc Hs].
    destruct n as [|n]; cbn.
    + destruct m as [|m]; cbn; [reflexivity|].
      rewrite Hc, (IH Hs). reflexivity.
    + apply IH, Hs.
Qed.

Lemma all_chars_weaken (P Q : ascii -> bool) (s : string) :
  (forall c, P c = true -> Q c = true) ->
  all_chars P s = true -> all_chars Q s = true.
Proof.
  intros HPQ. induction s as [|c s IH]; cbn; [reflexivity|].
  intros Hs. apply andb_true_iff in Hs. destruct Hs as [Hc Hs].
  rewrite (HPQ c Hc), (IH Hs). reflexivity.
Qed.

Lemma length_append (s1 s2 : string) :
  String.length (s1 ++ s2) = (String.length s1 + String.length s2)%nat.
Proof.
  induction s1 as [|c s1 IH]; cbn; [reflexivity|]. rewrite IH. reflexivity.
Qed.

Lemma length_substring_0 (s : string) :
  forall m, (m <= String.length s)%nat -> String.length (substring 0 m s) = m.
Proof.
  induction s as [|c s IH]; intros m Hm; cbn in Hm.
  - destruct m; [reflexivity|lia].
  - destruct m as [|m]; cbn; [reflexivity|]. rewrite IH; [reflexivity|lia].
Qed.

Lemma substring_0_append (s1 s2 : string) :
  substring 0 (String.length s1) (s1 ++ s2) = s1.
Proof.
  induction s1 as [|c s1 IH]; cbn.
  - destruct s2; reflexivity.
  - rewrite IH. reflexivity.
Qed.

Lemma upper_length (s : string) : String.length (upper s) = String.length s.
Proof.
  induction s as [|c s IH]; cbn; [reflexivity|]. rewrite IH. reflexivity.
Qed.

Lemma upper_char_hex (c : ascii) :
  is_lower_hex c = true -> is_upper_hex (upper_char c) = true.
Proof.
  destruct c as [[] [] [] [] [] [] [] []]; vm_compute; intros H;
    (reflexivity || discriminate H).
Qed.

Lemma upper_all_hex (s : string) :
  all_chars is_lower_hex s = true -> all_chars is_upper_hex (upper s) = true.
Proof.
  induction s as [|c s IH]; cbn; [reflexivity|].
  intros Hs. apply andb_true_iff in Hs. destruct Hs as [Hc Hs].
  rewrite (upper_char_hex c Hc), (IH Hs). reflexivity.
Qed.

Lemma upper_hex_alnum (c : ascii) : is_upper_hex c = true -> is_alnum c = true.
Proof.
  destruct c as [[] [] [] [] [] [] [] []]; vm_compute; intros H;
    (reflexivity || discriminate H).
Qed.

(** ** Identifiers *)

Section Identifiers.

(** The digits of ['%x'] are hexadecimal digits: by recursion on [p], four
    bits at a time, as [of_pos] is defined. *)
Fixpoint of_pos_all_hex (p : positive) (rest : string) {struct p} :
  all_chars is_lower_hex rest = true ->
  all_chars is_lower_hex (HexString.Raw.of_pos p rest) = true.
Proof.
  intros Hrest.
  do 4 try destruct p as [p|p|]; cbn [HexString.Raw.of_pos];
    try (apply of_pos_all_hex); cbn; rewrite ?Hrest; reflexivity.
Qed.

Lemma format_032x_all_hex (n : N) :
  all_chars is_lower_hex (UUID.format_032x n) = true.
Proof.
  unfold UUID.format_032x. rewrite all_chars_append. apply andb_true_iff. split.
  - induction (32 - String.length (UUID.format_x n))%nat as [|k IH]; cbn; auto.
  - destruct n as [|p]; cbn; [reflexivity|]. apply of_pos_all_hex. reflexivity.
Qed.

Lemma zeros_length (n : nat) : String.length (UUID.zeros n) = n.
Proof.
  induction n as [|n IH]; cbn; [reflexivity|]. rewrite IH. reflexivity.
Qed.

Lemma format_032x_length (n : N) : (32 <= String.length (UUID.format_032x n))%nat.
Proof.
  unfold UUID.format_032x. rewrite length_append, zeros_length. lia.
Qed.

(** The first eight characters of [str(uuid)] are the first eight
    hexadecimal digits of its integer. *)
Lemma str_prefix (int : N) :
  UUID.slice (UUID.str int) 0 8 = UUID.slice (UUID.format_032x int) 0 8.
Proof.
  unfold UUID.str.
  set (hex := UUID.format_032x int).
  assert (Hlen : String.length (UUID.slice hex 0 8) = 8%nat).
  { unfold UUID.slice. apply length_substring_0.
    pose proof (format_032x_length int) as H32. fold hex in H32.
    change (8 - 0)%nat with 8%nat. lia. }
  unfold UUID.slice at 1. cbn [Nat.sub].
  rewrite <- Hlen at 1. apply substring_0_append.
Qed.

End Identifiers.

(** ** The record store *)

Section RecordStoreFacts.
Import RecordStore.

Lemma new_patient_id_pattern (urandom : N) : id_pattern (new_patient_id urandom).
Proof.
  unfold new_patient_id, id_pattern. rewrite str_prefix.
  exists (upper (UUID.slice (UUID.format_032x (UUID.uuid4 urandom)) 0 8)).
  split; [reflexivity|]. split.
  - rewrite upper_length. unfold UUID.slice. apply length_substring_0.
    pose proof (format_032x_length (UUID.uuid4 urandom)) as H32.
    change (8 - 0)%nat with 8%nat. lia.
  - apply (all_chars_weaken is_upper_hex); [exact upper_hex_alnum|].
    apply upper_all_hex. unfold UUID.slice.
    apply all_chars_substring, format_032x_all_hex.
Qed.

Lemma unused_existsb (patient_id : string) (rows : list PatientRow.t) :
  Forall (fun row => PatientRow.patient_id row <> patient_id) rows <->
  existsb (fun row => PatientRow.patient_id row =? patient_id) rows = false.
Proof.
  induction rows as [|row rows IH]; cbn.
  - split; [reflexivity|constructor].
  - rewrite orb_false_iff, <- IH. split.
    + intros Hall. inversion Hall as [|? ? Hrow Hrest]; subst.
      split; [apply String.eqb_neq, Hrow|exact Hrest].
    + intros [Hrow Hrest]. constructor; [apply String.eqb_neq, Hrow|exact Hrest].
Qed.

(** With an age that fits and an unused identifier the insert goes
    through... *)
Lemma run_add_unused (c : add_call) (db : database) :
  fits_int64 (call_age c) = true ->
  patient_id_unused (new_patient_id (call_urandom c)) db ->
  run_add c db =
    (inr (new_patient_id (call_urandom c)),
     mkdb (patients db ++ [inserted_row c db]) (medical_data db)
       (intelligence_insights db)).
Proof.
  intros Hfits Hunused. apply unused_existsb in Hunused.
  unfold run_add, add_patient. rewrite Hfits, Hunused. reflexivity.
Qed.

(** ... with a used one the [UNIQUE] constraint raises, and the tables
    stay as they were... *)
Lemma run_add_used (c : add_call) (db : database) :
  fits_int64 (call_age c) = true ->
  ~ patient_id_unused (new_patient_id (call_urandom c)) db ->
  run_add c db =
    (inl (IntegrityError "UNIQUE constraint failed: patients.patient_id"), db).
Proof.
  intros Hfits Hused. unfold run_add, add_patient. rewrite Hfits. cbn [negb].
  destruct (existsb _ (patients db)) eqn:E; [reflexivity|].
  exfalso. apply Hused, unused_existsb, E.
Qed.

(** ... and with an age that does not fit nothing is run at all. *)
Lemma run_add_overflow (c : add_call) (db : database) :
  fits_int64 (call_age c) = false ->
  run_add c db =
    (inl (OverflowError "Python int too large to convert to SQLite INTEGER"), db).
Proof.
  intros Hfits. unfold run_add, add_patient. rewrite Hfits. reflexivity.
Qed.

(** A row newer than all the rows before it is listed first. *)
Lemma sort_desc_newest_first (rows : list PatientRow.t) (row : PatientRow.t) :
  Forall (fun r => (PatientRow.created_at r < PatientRow.created_at row)%Z) rows ->
  sort_desc Z.gtb PatientRow.created_at (rows ++ [row])
  = row :: sort_desc Z.gtb PatientRow.created_at rows.
Proof.
  induction rows as [|r rows IH]; intros Hall; cbn; [reflexivity|].
  inversion Hall as [|? ? Hr Hrest]; subst.
  rewrite (IH Hrest). cbn.
  replace (PatientRow.created_at row >? PatientRow.created_at r)%Z with true;
    [reflexivity|].
  symmetry. apply Z.gtb_lt. exact Hr.
Qed.

End RecordStoreFacts.

(** *** [add_patient] followed by [get_all_patients] *)

Section AddThenList.
Import RecordStore.

(** A call whose identifier is unused, made after every stored patient
    was created, returns and heads the listing that follows. *)
Lemma add_patient_listed_first (c : add_call) (db : database) :
  fits_int64 (call_age c) = true ->
  patient_id_unused (new_patient_id (call_urandom c)) db ->
  created_before (call_now c) db ->
  added_and_listed_first c db.
Proof.
  intros Hfits Hunused Hbefore.
  unfold added_and_listed_first.
  rewrite (run_add_unused c db Hfits Hunused).
  eexists _, _, (inserted_row c db), _.
  split; [reflexivity|]. split; [apply new_patient_id_pattern|].
  split; [|repeat split; reflexivity].
  unfold get_all_patients, ret. cbn [patients].
  rewrite sort_desc_newest_first; [reflexivity|exact Hbefore].
Qed.

(** C5, as amended: when the identifier drawn is not yet in the table and
    every stored patient was created before the current second,
    [add_patient("Jane Doe", 70, "Female", "none")] returns 'MI-' followed
    by eight alphanumeric characters, and the first row of the listing that
    follows holds the inserted name, age, gender and medical history. *)
Theorem add_jane_doe_listed_first (urandom : N) (now : Z) (db : database) :
  patient_id_unused (new_patient_id urandom) db ->
  created_before now db ->
  added_and_listed_first (jane_doe urandom now) db.
Proof.
  intros Hunused Hbefore.
  apply (add_patient_listed_first (jane_doe urandom now) db eq_refl Hunused Hbefore).
Qed.

(** Jane Doe added one second after John Roe heads the listing. *)
Lemma add_jane_doe_listed_first_witness :
  added_and_listed_first (jane_doe 0x9a7c4e215b3d4f608e1a2c3d4e5f6071 1762190001)
    database_with_john.
Proof.
  apply (add_jane_doe_listed_first 0x9a7c4e215b3d4f608e1a2c3d4e5f6071 1762190001
           database_with_john).
  - apply unused_existsb. vm_compute. reflexivity.
  - repeat constructor.
Defined.

(** C5, as stated, fails: a patient added in the same second as an earlier
    one is listed after it, rows of equal [created_at] coming out in the
    order of their row ids. *)
Lemma add_jane_doe_same_second_listed_second :
  ~ added_and_listed_first jane_doe_call database_with_john.
Proof.
  intros (patient_id & db' & row & rest & Hadd & _ & Hlist & Hname & _).
  vm_compute in Hadd. injection Hadd as _ Hdb. subst db'.
  vm_compute in Hlist. injection Hlist as Hrow _. subst row.
  discriminate Hname.
Qed.

End AddThenList.

(** *** Two calls of [add_patient] *)

Section AddTwice.
Import RecordStore.






End AddTwice.

(** *** [save_intelligence_insight] *)

Section SaveInsight.
Import RecordStore.

(** C7: after [save_intelligence_insight] the table is the one before with
    one more row at its end, and that row holds the confidence passed in,
    unchanged, beside the other three arguments. *)
Theorem save_intelligence_insight_round_trip
    (now : Z) (patient_id insight_type insight_text : string)
    (confidence : Q) (db : database) :
  exists row,
    save_intelligence_insight now patient_id insight_type insight_text confidence db
    = (inr tt,
       mkdb (patients db) (medical_data db) (intelligence_insights db ++ [row])) /\
    InsightRow.confidence row = confidence /\
    InsightRow.patient_id row = patient_id /\
    InsightRow.insight_type row = insight_type /\
    InsightRow.insight_text row = insight_text.
Proof.
  eexists. split; [reflexivity|]. repeat split; reflexivity.
Qed.

End SaveInsight.

(** *** The patient form *)

Section PatientFormFacts.
Import RecordStore PatientForm.

(** The loop over the insights never raises and writes to
    [intelligence_insights] only, one row per insight. *)
Lemma save_insights_appends (clock : nat -> Z) (patient_id : string)
    (insights : list Insight.t) :
  forall (k : nat) (db : database),
  exists rows,
    save_insights clock k patient_id insights db
    = (inr tt,
       mkdb (patients db) (medical_data db) (intelligence_insights db ++ rows)) /\
    map InsightRow.confidence rows = map Insight.confidence insights.
Proof.
  induction insights as [|insight rest IH]; intros k db.
  - exists []. cbn. rewrite app_nil_r. destruct db; split; reflexivity.
  - cbn [save_insights]. unfold bind, save_intelligence_insight, ret.
    destruct (IH (S k)
                (mkdb (patients db) (medical_data db)
                   (intelligence_insights db ++
                      [InsightRow.mk
                         (next_id (map InsightRow.id (intelligence_insights db)))
                         patient_id (Insight.type insight) (Insight.insight insight)
                         (Insight.confidence insight) (clock k)])))
      as (rows & Hrun & Hconf).
    eexists (_ :: rows). split.
    + rewrite Hrun. cbn [patients medical_data intelligence_insights].
      rewrite <- app_assoc. reflexivity.
    + cbn. rewrite Hconf. reflexivity.
Qed.

(** C8: with an empty name (or no submission) the handler returns without
    raising and leaves the database as it was; with a non-empty name it
    calls [add_patient], which on an unused identifier appends the
    patient's row; so the table of patients changes only if the name is
    not empty.  The age of the form's widget lies between 0 and 120; an
    age that SQLite cannot hold makes [add_patient] raise before anything
    is stored. *)
Theorem on_submit_requires_name (submitted : bool)
    (name : string) (age : Z) (gender medical_history : string)
    (urandom : N) (clock : nat -> Z) (db : database) :
  (submitted = false \/ name = "" ->
   on_submit submitted name age gender medical_history urandom clock db
   = (inr tt, db)) /\
  (submitted = true /\ name <> "" ->
   (fits_int64 age = true ->
    (patient_id_unused (new_patient_id urandom) db ->
     fst (on_submit submitted name age gender medical_history urandom clock db)
     = inr tt /\
     patients (snd (on_submit submitted name age gender medical_history urandom clock db))
     = patients db ++
         [inserted_row
            (mk_add_call urandom (clock 0%nat) name age gender medical_history) db]) /\
    (~ patient_id_unused (new_patient_id urandom) db ->
     on_submit submitted name age gender medical_history urandom clock db
     = (inl (IntegrityError "UNIQUE constraint failed: patients.patient_id"), db))) /\
   (fits_int64 age = false ->
    on_submit submitted name age gender medical_history urandom clock db
    = (inl (OverflowError "Python int too large to convert to SQLite INTEGER"), db))) /\
  ((0 <= age <= 120)%Z -> fits_int64 age = true) /\
  (patients (snd (on_submit submitted name age gender medical_history urandom clock db))
   <> patients db ->
   submitted = true /\ name <> "").
Proof.
  assert (Hskip : submitted = false \/ name = "" ->
                  on_submit submitted name age gender medical_history urandom clock db
                  = (inr tt, db)).
  { intros [-> | ->]; [reflexivity|]. destruct submitted; reflexivity. }
  split; [exact Hskip|]. split; [|split].
  - intros [-> Hname].
    unfold on_submit, truthy.
    destruct (String.eqb_spec name ""); [contradiction|]. cbn [negb].
    unfold bind.
    set (c := mk_add_call urandom (clock 0%nat) name age gender medical_history).
    change (add_patient urandom (clock 0%nat) name age gender medical_history db)
      with (run_add c db).
    split; [intros Hfits; split|].
    + intros Hunused. rewrite (run_add_unused c db Hfits Hunused).
      destruct (save_insights_appends clock (new_patient_id urandom)
                  (MedicalIntelligence.analyze_patient
                     (PatientData.mk (Some age) (Some gender) (Some medical_history)))
                  1 (mkdb (patients db ++ [inserted_row c db]) (medical_data db)
                       (intelligence_insights db)))
        as (rows & Hrun & _).
      cbn [call_urandom c] in Hrun |- *. rewrite Hrun. split; reflexivity.
    + intros Hused. rewrite (run_add_used c db Hfits Hused). reflexivity.
    + intros Hfits. rewrite (run_add_overflow c db Hfits). reflexivity.
  - intros Hage. unfold fits_int64.
    apply andb_true_intro. split; [apply Z.leb_le|apply Z.ltb_lt]; lia.
  - intros Hchanged. destruct submitted.
    + split; [reflexivity|]. intros ->. apply Hchanged.
      rewrite Hskip; [reflexivity|right; reflexivity].
    + exfalso. apply Hchanged. rewrite Hskip; [reflexivity|left; reflexivity].
Qed.

End PatientFormFacts.

(** * Further properties *)

(** ** More of [analyze_patient] *)

Section AnalyzePatientMore.
Import MedicalIntelligence.

(** X1: the insights come in the fixed order 'Risk Assessment',
    'Cardiovascular Intelligence', 'Preventive Intelligence', every insight
    being of one of these types; there are between one and three, and
    three exactly for a male patient over 65. *)
Theorem analyze_patient_order (p : PatientData.t) :
  analyze_patient p
  = of_type "Risk Assessment" (analyze_patient p)
    ++ of_type "Cardiovascular Intelligence" (analyze_patient p)
    ++ of_type "Preventive Intelligence" (analyze_patient p) /\
  (1 <= List.length (analyze_patient p) <= 3)%nat /\
  (List.length (analyze_patient p) = 3%nat <->
   rule_gender p = "Male" /\ (rule_age p > 65)%Z).
Proof.
  rewrite (analyze_patient_rules p).
  destruct (Z.gtb_spec (rule_age p) 65);
    destruct (String.eqb_spec (rule_gender p) "Male");
    destruct (Z.gtb_spec (rule_age p) 45);
    cbn; repeat split; try reflexivity; try lia;
    try (intros [? ?]; (contradiction || lia));
    try discriminate; try assumption.
Qed.

(** X2: at a given gender the insights only grow with age: an insight
    given at one age is given at every greater age. *)
Theorem analyze_patient_grows_with_age
    (gender history1 history2 : option string) (age1 age2 : Z) (i : Insight.t) :
  (age1 <= age2)%Z ->
  In i (analyze_patient (PatientData.mk (Some age1) gender history1)) ->
  In i (analyze_patient (PatientData.mk (Some age2) gender history2)).
Proof.
  intros Hle.
  rewrite !analyze_patient_rules. unfold rule_age, rule_gender. cbn [PatientData.age PatientData.gender dict_get].
  destruct (Z.gtb_spec age1 65); destruct (Z.gtb_spec age2 65); try lia;
    destruct (String.eqb_spec (dict_get gender "Unknown") "Male");
    destruct (Z.gtb_spec age1 45); destruct (Z.gtb_spec age2 45); try lia;
    cbn; tauto.
Qed.

(** A man of 50 and the same man at 70. *)
Lemma analyze_patient_grows_with_age_witness :
  In cardiovascular_intelligence
    (analyze_patient (PatientData.mk (Some 70%Z) (Some "Male") (Some "none"))).
Proof.
  apply (analyze_patient_grows_with_age (Some "Male") (Some "none") (Some "none")
           50 70 cardiovascular_intelligence).
  - discriminate.
  - left. reflexivity.
Defined.

End AnalyzePatientMore.

(** ** More of [predict_conditions] *)

Section PredictConditionsMore.
Import MedicalIntelligence.

(** The loop appends one prediction per condition, in order, labelled by
    its own confidence, and draws once for each. *)
Lemma predict_loop_trace (conds : list string) :
  forall (predictions : list Prediction.t) (g : Random.t),
    map Prediction.condition (fst (predict_loop conds predictions g))
    = map Prediction.condition predictions ++ conds /\
    snd (predict_loop conds predictions g)
    = Random.mk (Random.outputs g) (Random.drawn g + List.length conds) /\
    (Forall (fun p => Prediction.risk_level p
                      = risk_level_of (Prediction.confidence p)) predictions ->
     Forall (fun p => Prediction.risk_level p
                      = risk_level_of (Prediction.confidence p))
       (fst (predict_loop conds predictions g))).
Proof.
  induction conds as [|condition rest IH]; intros predictions g.
  - cbn. rewrite app_nil_r, Nat.add_0_r. destruct g; auto.
  - cbn [predict_loop Random.uniform Random.random].
    match goal with
    | |- context [predict_loop rest ?acc ?g'] => destruct (IH acc g') as (Hc & Hg & Hl)
    end.
    rewrite Hc, Hg. cbn [Random.outputs Random.drawn List.length].
    rewrite map_app, <- app_assoc. cbn [map Prediction.condition app].
    repeat split.
    + f_equal. lia.
    + intros Hall. apply Hl. apply Forall_app. split; [exact Hall|].
      constructor; [reflexivity|constructor].
Qed.

(** The loop reads the generator only at the positions it draws. *)
Lemma predict_loop_reads (conds : list string) :
  forall (predictions : list Prediction.t) (g g' : Random.t),
    Random.drawn g' = Random.drawn g ->
    (forall k, (k < List.length conds)%nat ->
               Random.outputs g' (Random.drawn g + k) = Random.outputs g (Random.drawn g + k)) ->
    fst (predict_loop conds predictions g') = fst (predict_loop conds predictions g).
Proof.
  induction conds as [|condition rest IH]; intros predictions g g' Hdrawn Hout.
  - reflexivity.
  - cbn [predict_loop Random.uniform Random.random].
    assert (H0 : Random.outputs g' (Random.drawn g') = Random.outputs g (Random.drawn g)).
    { rewrite Hdrawn. specialize (Hout 0%nat). rewrite Nat.add_0_r in Hout.
      apply Hout. cbn. lia. }
    rewrite H0. apply IH.
    + cbn. rewrite Hdrawn. reflexivity.
    + intros k Hk. cbn [Random.outputs Random.drawn].
      replace (S (Random.drawn g) + k)%nat with (Random.drawn g + S k)%nat by lia.
      apply Hout. cbn. lia.
Qed.

Lemma all_predictions_length (g : Random.t) : List.length (all_predictions g) = 6%nat.
Proof.
  unfold all_predictions.
  rewrite <- (length_map Prediction.condition).
  rewrite (proj1 (predict_loop_trace conditions [] g)). reflexivity.
Qed.

Lemma sort_desc_confidence_sorted (l : list Prediction.t) :
  StronglySorted confidence_ge (sort_desc Qgtb Prediction.confidence l).
Proof.
  apply Sorted_StronglySorted.
  - intros a b c Hab Hbc. unfold confidence_ge in *. eapply Qle_trans; eassumption.
  - pose proof (sort_desc_Sorted Qgtb Prediction.confidence Qgtb_asym l) as Hs.
    induction Hs as [|a l' Hl IHl Hhd]; constructor; [exact IHl|].
    destruct Hhd as [|b l'' Hb]; constructor. apply Qgtb_false, Hb.
Qed.

Lemma StronglySorted_app_order {A : Type} (R : A -> A -> Prop) (l1 l2 : list A) :
  StronglySorted R (l1 ++ l2) -> forall a b, In a l1 -> In b l2 -> R a b.
Proof.
  induction l1 as [|x l1 IH]; intros Hs a b Ha Hb; [contradiction|].
  cbn in Hs. inversion Hs as [|? ? Hrest Hall]; subst.
  destruct Ha as [<-|Ha].
  - rewrite Forall_forall in Hall. apply Hall, in_or_app. right. exact Hb.
  - apply IH; assumption.
Qed.

Lemma predict_conditions_result (patient_data : PatientData.t) (g : Random.t) :
  fst (predict_conditions patient_data g)
  = firstn 4 (sort_desc Qgtb Prediction.confidence (all_predictions g)).
Proof.
  unfold predict_conditions, all_predictions.
  destruct (predict_loop conditions [] g). reflexivity.
Qed.

(** X3: the four predictions returned are the largest of the six made:
    with the two left out they are the six, and neither of the two has a
    greater confidence than any of the four. *)
Theorem predict_conditions_keeps_largest (patient_data : PatientData.t) (g : Random.t) :
  exists dropped,
    Permutation (fst (predict_conditions patient_data g) ++ dropped) (all_predictions g) /\
    List.length dropped = 2%nat /\
    forall kept d,
      In kept (fst (predict_conditions patient_data g)) -> In d dropped ->
      (Prediction.confidence d <= Prediction.confidence kept)%Q.
Proof.
  rewrite predict_conditions_result.
  set (sorted := sort_desc Qgtb Prediction.confidence (all_predictions g)).
  exists (skipn 4 sorted). repeat split.
  - rewrite firstn_skipn. apply Permutation_sym, sort_desc_perm.
  - rewrite length_skipn. unfold sorted.
    rewrite sort_desc_length, all_predictions_length. reflexivity.
  - intros kept d Hkept Hd.
    apply (StronglySorted_app_order confidence_ge (firstn 4 sorted) (skipn 4 sorted));
      [|exact Hkept|exact Hd].
    rewrite firstn_skipn. apply sort_desc_confidence_sorted.
Qed.

(** X4: no condition is predicted twice, and every condition predicted
    is one of [self.conditions]. *)
Theorem predict_conditions_distinct (patient_data : PatientData.t) (g : Random.t) :
  NoDup (map Prediction.condition (fst (predict_conditions patient_data g))) /\
  incl (map Prediction.condition (fst (predict_conditions patient_data g))) conditions.
Proof.
  rewrite predict_conditions_result.
  set (sorted := sort_desc Qgtb Prediction.confidence (all_predictions g)).
  assert (Hperm : Permutation conditions (map Prediction.condition sorted)).
  { unfold sorted, all_predictions.
    rewrite <- (proj1 (predict_loop_trace conditions [] g)) at 1.
    apply Permutation_map, sort_desc_perm. }
  assert (Hnodup : NoDup (map Prediction.condition sorted)).
  { eapply Permutation_NoDup; [exact Hperm|].
    unfold conditions. repeat constructor; cbn; intuition discriminate. }
  rewrite <- (firstn_skipn 4 sorted), map_app in Hnodup, Hperm.
  split.
  - eapply NoDup_app_remove_r, Hnodup.
  - intros c Hc. eapply Permutation_in; [apply Permutation_sym, Hperm|].
    apply in_or_app. left. exact Hc.
Qed.

(** X5: a call draws six numbers from the generator and reads nothing
    else: the generator is left six outputs further, and the predictions are
    the same for any patient and any generator that agrees on these six. *)
Theorem predict_conditions_six_draws
    (patient_data patient_data' : PatientData.t) (g g' : Random.t) :
  snd (predict_conditions patient_data g)
  = Random.mk (Random.outputs g) (Random.drawn g + 6) /\
  (Random.drawn g' = Random.drawn g ->
   (forall k, (k < 6)%nat ->
              Random.outputs g' (Random.drawn g + k) = Random.outputs g (Random.drawn g + k)) ->
   fst (predict_conditions patient_data' g') = fst (predict_conditions patient_data g)).
Proof.
  split.
  - unfold predict_conditions.
    pose proof (proj1 (proj2 (predict_loop_trace conditions [] g))) as Hg.
    destruct (predict_loop conditions [] g). exact Hg.
  - intros Hdrawn Hout. rewrite !predict_conditions_result. unfold all_predictions.
    rewrite (predict_loop_reads conditions [] g g' Hdrawn Hout). reflexivity.
Qed.

Lemma risk_rank_monotone (c1 c2 : Q) :
  (c2 <= c1)%Q ->
  (risk_rank (risk_level_of c2) <= risk_rank (risk_level_of c1))%nat.
Proof.
  intros Hle. unfold risk_level_of.
  destruct uniform_ends as (_ & _ & _ & _ & _ & _ & Hlt).
  set (high := Float64.literal 0.7) in *. set (medium := Float64.literal 0.4) in *.
  destruct (Qgtb c1 high) eqn:E1; [apply Qgtb_true in E1|apply Qgtb_false in E1];
    (destruct (Qgtb c1 medium) eqn:F1; [apply Qgtb_true in F1|apply Qgtb_false in F1]);
    (destruct (Qgtb c2 high) eqn:E2; [apply Qgtb_true in E2|apply Qgtb_false in E2]);
    (destruct (Qgtb c2 medium) eqn:F2; [apply Qgtb_true in F2|apply Qgtb_false in F2]);
    cbn; try lia; exfalso; lra.
Qed.

(** X6: along the list returned the risk never rises: after a 'Medium'
    comes no 'High', and after a 'Low' only 'Low'. *)
Theorem predict_conditions_risk_falls (patient_data : PatientData.t) (g : Random.t) :
  StronglySorted risk_ge (fst (predict_conditions patient_data g)).
Proof.
  rewrite predict_conditions_result.
  set (sorted := sort_desc Qgtb Prediction.confidence (all_predictions g)).
  assert (Hlabel : Forall (fun p => Prediction.risk_level p
                                    = risk_level_of (Prediction.confidence p)) sorted).
  { apply sort_desc_Forall. unfold all_predictions.
    apply (proj2 (proj2 (predict_loop_trace conditions [] g))). constructor. }
  pose proof (sort_desc_confidence_sorted (all_predictions g)) as Hsorted.
  fold sorted in Hsorted.
  apply StronglySorted_firstn.
  induction Hsorted as [|a l Hl IHl Hall]; [constructor|].
  inversion Hlabel as [|? ? Ha Hrest]; subst.
  constructor; [apply IHl, Hrest|].
  rewrite Forall_forall in *. intros b Hb. unfold risk_ge.
  rewrite Ha, (Hrest b Hb). apply risk_rank_monotone. apply (Hall b Hb).
Qed.

End PredictConditionsMore.

(** ** More of the record store *)

Section RecordStoreMore.
Import RecordStore.

Lemma new_patient_id_hex (urandom : N) : hex_id_pattern (new_patient_id urandom).
Proof.
  unfold new_patient_id, hex_id_pattern. rewrite str_prefix.
  exists (upper (UUID.slice (UUID.format_032x (UUID.uuid4 urandom)) 0 8)).
  split; [reflexivity|]. split.
  - rewrite upper_length. unfold UUID.slice. apply length_substring_0.
    pose proof (format_032x_length (UUID.uuid4 urandom)) as H32.
    change (8 - 0)%nat with 8%nat. lia.
  - apply upper_all_hex. unfold UUID.slice.
    apply all_chars_substring, format_032x_all_hex.
Qed.

(** The largest of the ids 1 to [n] is [n]. *)
Lemma max_ids_from_one (n : nat) :
  fold_right Z.max 0%Z (map Z.of_nat (seq 1 n)) = Z.of_nat n.
Proof.
  induction n as [|n IH]; [reflexivity|].
  rewrite seq_S, map_app, fold_right_app. cbn [map fold_right].
  change (1 + n)%nat with (S n).
  assert (Hgen : forall l (x : Z),
             (0 <= x)%Z ->
             fold_right Z.max x l = Z.max x (fold_right Z.max 0%Z l)).
  { induction l as [|y l IHl]; intros x Hx; cbn; [lia|].
    rewrite (IHl x Hx). lia. }
  rewrite Hgen, IH; lia.
Qed.

Lemma next_id_from_one (ids : list Z) :
  ids_from_one ids -> ids_from_one (ids ++ [next_id ids]).
Proof.
  unfold ids_from_one, next_id. intros Hids.
  rewrite length_app, Nat.add_1_r, seq_S, map_app. cbn [map List.length].
  rewrite <- Hids. f_equal. f_equal.
  rewrite Hids at 1. rewrite max_ids_from_one. lia.
Qed.

Lemma unused_not_in (patient_id : string) (db : database) :
  patient_id_unused patient_id db <->
  ~ In patient_id (map PatientRow.patient_id (patients db)).
Proof.
  unfold patient_id_unused. rewrite Forall_forall, in_map_iff. split.
  - intros Hall (row & Heq & Hin). exact (Hall row Hin Heq).
  - intros Hnot row Hin Heq. apply Hnot. exists row. split; assumption.
Qed.

Lemma run_add_invariant (c : add_call) (db : database) :
  store_invariant db -> store_invariant (snd (run_add c db)).
Proof.
  intros (Hnodup & Hhex & Hpid & Hiid & Hmed).
  destruct (fits_int64 (call_age c)) eqn:Hfits;
    [|rewrite (run_add_overflow c db Hfits); cbn [snd]; repeat split; assumption].
  destruct (Forall_dec (fun row => PatientRow.patient_id row
                                   <> new_patient_id (call_urandom c))
              (fun row => match string_dec (PatientRow.patient_id row)
                                  (new_patient_id (call_urandom c)) with
                          | left e => right (fun n => n e)
                          | right n => left n
                          end)
              (patients db)) as [Hunused|Hused].
  - rewrite (run_add_unused c db Hfits Hunused). cbn [snd].
    unfold store_invariant. cbn [patients medical_data intelligence_insights].
    rewrite !map_app. cbn [map]. repeat split.
    + apply NoDup_app_remove_l with (l := []). cbn.
      apply Permutation_NoDup with (l := PatientRow.patient_id (inserted_row c db)
                                         :: map PatientRow.patient_id (patients db)).
      * apply Permutation_cons_append.
      * constructor; [|exact Hnodup]. apply unused_not_in. exact Hunused.
    + apply Forall_app. split; [exact Hhex|].
      constructor; [apply new_patient_id_hex|constructor].
    + apply next_id_from_one, Hpid.
    + exact Hiid.
    + exact Hmed.
  - rewrite (run_add_used c db Hfits Hused). cbn [snd]. repeat split; assumption.
Qed.

Lemma save_invariant (now : Z) (patient_id insight_type insight_text : string)
    (confidence : Q) (db : database) :
  store_invariant db ->
  store_invariant
    (snd (save_intelligence_insight now patient_id insight_type insight_text
            confidence db)).
Proof.
  intros (Hnodup & Hhex & Hpid & Hiid & Hmed).
  unfold save_intelligence_insight, ret, store_invariant.
  cbn [snd patients medical_data intelligence_insights].
  rewrite map_app. cbn [map]. repeat split; try assumption.
  apply next_id_from_one, Hiid.
Qed.

Lemma save_insights_invariant (clock : nat -> Z) (patient_id : string)
    (insights : list Insight.t) :
  forall (k : nat) (db : database),
    store_invariant db ->
    store_invariant (snd (PatientForm.save_insights clock k patient_id insights db)).
Proof.
  induction insights as [|insight rest IH]; intros k db Hinv; [exact Hinv|].
  cbn [PatientForm.save_insights]. unfold bind.
  pose proof (save_invariant (clock k) patient_id (Insight.type insight)
                (Insight.insight insight) (Insight.confidence insight) db Hinv) as Hsave.
  destruct (save_intelligence_insight (clock k) patient_id (Insight.type insight)
              (Insight.insight insight) (Insight.confidence insight) db)
    as [[e|[]] db'] eqn:E; cbn [snd] in Hsave.
  - exact Hsave.
  - apply IH, Hsave.
Qed.

Lemma submit_invariant (s : submission) (db : database) :
  store_invariant db -> store_invariant (snd (submit s db)).
Proof.
  intros Hinv. unfold submit, PatientForm.on_submit.
  destruct (form_submitted s); [|exact Hinv].
  destruct (truthy (form_name s)); [|exact Hinv].
  unfold bind.
  pose proof (run_add_invariant
                (mk_add_call (form_urandom s) (form_clock s 0%nat) (form_name s)
                   (form_age s) (form_gender s) (form_medical_history s)) db Hinv)
    as Hadd.
  unfold run_add in Hadd. cbn [call_urandom call_now call_name call_age
                                 call_gender call_medical_history] in Hadd.
  destruct (add_patient (form_urandom s) (form_clock s 0%nat) (form_name s)
              (form_age s) (form_gender s) (form_medical_history s) db)
    as [[e|patient_id] db'] eqn:E; cbn [snd] in Hadd.
  - exact Hadd.
  - apply save_insights_invariant, Hadd.
Qed.

Lemma perform_invariant (a : action) (db : database) :
  store_invariant db -> store_invariant (perform db a).
Proof.
  destruct a; cbn [perform].
  - apply run_add_invariant.
  - apply save_invariant.
  - apply submit_invariant.
Qed.

Lemma store_after_invariant (actions : list action) :
  store_invariant (store_after actions).
Proof.
  unfold store_after.
  assert (Hgen : forall db, store_invariant db ->
                            store_invariant (fold_left perform actions db)).
  { induction actions as [|a actions IH]; intros db Hinv; [exact Hinv|].
    cbn. apply IH, perform_invariant, Hinv. }
  apply Hgen. repeat split; constructor.
Qed.

(** X7: whatever calls and submissions were made on a new file, no two
    patients share an identifier, every identifier is 'MI-' followed by
    eight hexadecimal digits in upper case, the patients carry the row ids
    1, 2, ... in the order of insertion, and so do the insights. *)
Theorem store_identifiers (actions : list action) :
  NoDup (map PatientRow.patient_id (patients (store_after actions))) /\
  Forall hex_id_pattern (map PatientRow.patient_id (patients (store_after actions))) /\
  ids_from_one (map PatientRow.id (patients (store_after actions))) /\
  ids_from_one (map InsightRow.id (intelligence_insights (store_after actions))).
Proof.
  destruct (store_after_invariant actions) as (H1 & H2 & H3 & H4 & _).
  repeat split; assumption.
Qed.

End RecordStoreMore.

(** ** Rows are only ever added *)

Section AppendOnly.
Import RecordStore.

(** [db'] holds the rows of [db], unchanged and in place, and maybe more
    after them. *)
Let grown (db db' : database) : Prop :=
  (exists added, patients db' = patients db ++ added) /\
  (exists added, intelligence_insights db' = intelligence_insights db ++ added) /\
  medical_data db' = medical_data db.

Lemma grown_refl (db : database) : grown db db.
Proof.
  repeat split; try (exists []; rewrite app_nil_r; reflexivity).
Qed.

Lemma grown_trans (db1 db2 db3 : database) :
  grown db1 db2 -> grown db2 db3 -> grown db1 db3.
Proof.
  intros ((p1 & Hp1) & (i1 & Hi1) & Hm1) ((p2 & Hp2) & (i2 & Hi2) & Hm2).
  repeat split.
  - exists (p1 ++ p2). rewrite Hp2, Hp1, app_assoc. reflexivity.
  - exists (i1 ++ i2). rewrite Hi2, Hi1, app_assoc. reflexivity.
  - congruence.
Qed.

Lemma run_add_grown (c : add_call) (db : database) : grown db (snd (run_add c db)).
Proof.
  unfold run_add, add_patient, raise, ret.
  destruct (fits_int64 (call_age c)); cbn [negb snd]; [|apply grown_refl].
  destruct (existsb _ (patients db)); cbn [snd]; [apply grown_refl|].
  repeat split; cbn.
  - eexists. reflexivity.
  - exists []. rewrite app_nil_r. reflexivity.
Qed.

Lemma save_insights_grown (clock : nat -> Z) (patient_id : string)
    (insights : list Insight.t) (k : nat) (db : database) :
  grown db (snd (PatientForm.save_insights clock k patient_id insights db)).
Proof.
  destruct (save_insights_appends clock patient_id insights k db) as (rows & Hrun & _).
  rewrite Hrun. repeat split; cbn.
  - exists []. rewrite app_nil_r. reflexivity.
  - exists rows. reflexivity.
Qed.

Lemma perform_grown (a : action) (db : database) : grown db (perform db a).
Proof.
  destruct a as [c|now patient_id insight_type insight_text confidence|s]; cbn [perform].
  - apply run_add_grown.
  - repeat split; cbn.
    + exists []. rewrite app_nil_r. reflexivity.
    + eexists. reflexivity.
  - unfold submit, PatientForm.on_submit.
    destruct (form_submitted s); [|apply grown_refl].
    destruct (truthy (form_name s)); [|apply grown_refl].
    unfold bind.
    pose proof (run_add_grown
                  (mk_add_call (form_urandom s) (form_clock s 0%nat) (form_name s)
                     (form_age s) (form_gender s) (form_medical_history s)) db) as Hadd.
    unfold run_add in Hadd. cbn [call_urandom call_now call_name call_age
                                   call_gender call_medical_history] in Hadd.
    destruct (add_patient (form_urandom s) (form_clock s 0%nat) (form_name s)
                (form_age s) (form_gender s) (form_medical_history s) db)
      as [[e|patient_id] db'] eqn:E; cbn [snd] in Hadd; [exact Hadd|].
    eapply grown_trans; [exact Hadd|apply save_insights_grown].
Qed.

(** X8: nothing stored is ever changed or removed: after any further
    actions the tables of patients and of insights begin with the rows they
    held before, and [medical_data] is still empty. *)
Theorem store_append_only (actions more : list action) :
  (exists added,
     patients (store_after (actions ++ more))
     = patients (store_after actions) ++ added) /\
  (exists added,
     intelligence_insights (store_after (actions ++ more))
     = intelligence_insights (store_after actions) ++ added) /\
  medical_data (store_after (actions ++ more)) = [].
Proof.
  unfold store_after. rewrite fold_left_app.
  assert (Hgen : forall db, grown db (fold_left perform more db)).
  { induction more as [|a more' IH]; intros db; [apply grown_refl|].
    cbn. eapply grown_trans; [apply perform_grown|apply IH]. }
  destruct (Hgen (fold_left perform actions empty_database)) as (Hp & Hi & Hm).
  repeat split; [exact Hp|exact Hi|].
  rewrite Hm.
  destruct (store_after_invariant actions) as (_ & _ & _ & _ & Hmed). exact Hmed.
Qed.

End AppendOnly.

(** ** More of [get_all_patients] *)

Section ListingMore.
Import RecordStore.

Lemma Zgtb_asym (j k : Z) : (j >? k)%Z = true -> (k >? j)%Z = false.
Proof.
  rewrite Z.gtb_ltb, Z.gtb_ltb, Z.ltb_lt, Z.ltb_ge. lia.
Qed.

(** X9: [get_all_patients] never raises and changes nothing; what it
    returns holds every patient once and is in descending order of
    [created_at]. *)
Theorem get_all_patients_sorted (db : database) :
  get_all_patients db = (inr (listing db), db) /\
  Permutation (patients db) (listing db) /\
  StronglySorted created_ge (listing db).
Proof.
  split; [reflexivity|]. split; [apply sort_desc_perm|].
  apply Sorted_StronglySorted.
  - intros a b c Hab Hbc. unfold created_ge in *. lia.
  - pose proof (sort_desc_Sorted Z.gtb PatientRow.created_at Zgtb_asym (patients db)) as Hs.
    fold (listing db) in Hs.
    induction Hs as [|a l Hl IHl Hhd]; constructor; [exact IHl|].
    destruct Hhd as [|b l' Hb]; constructor.
    unfold created_ge. rewrite Z.gtb_ltb, Z.ltb_ge in Hb. exact Hb.
Qed.

(** X10: when every patient was added in a later second than the one
    before, the listing is the table in reverse: newest first. *)
Theorem listing_newest_first (db : database) :
  StronglySorted (fun a b => (PatientRow.created_at a < PatientRow.created_at b)%Z)
    (patients db) ->
  listing db = rev (patients db).
Proof.
  unfold listing. generalize (patients db) as rows.
  induction rows as [|row rows IH] using rev_ind; intros Hs; [reflexivity|].
  rewrite rev_unit.
  assert (Hparts : StronglySorted
                     (fun a b => (PatientRow.created_at a < PatientRow.created_at b)%Z) rows
                   /\ Forall (fun r => (PatientRow.created_at r
                                        < PatientRow.created_at row)%Z) rows).
  { clear IH. induction rows as [|r rows IHr]; [split; constructor|].
    cbn in Hs. inversion Hs as [|? ? Hrest Hall]; subst.
    destruct (IHr Hrest) as (Hs' & Hlt). split.
    - constructor; [exact Hs'|].
      rewrite Forall_forall in *. intros b Hb. apply Hall, in_or_app. left. exact Hb.
    - constructor; [|exact Hlt].
      rewrite Forall_forall in Hall. apply Hall, in_or_app. right. left. reflexivity. }
  destruct Hparts as (Hrows & Hlt).
  rewrite sort_desc_newest_first; [|exact Hlt]. rewrite (IH Hrows). reflexivity.
Qed.

(** John Roe, then Jane Doe a second later. *)
Lemma listing_newest_first_witness :
  listing (snd (run_add (jane_doe 0x9a7c4e215b3d4f608e1a2c3d4e5f6071 1762190001)
                  database_with_john))
  = rev (patients (snd (run_add (jane_doe 0x9a7c4e215b3d4f608e1a2c3d4e5f6071 1762190001)
                          database_with_john))).
Proof.
  apply (listing_newest_first
           (snd (run_add (jane_doe 0x9a7c4e215b3d4f608e1a2c3d4e5f6071 1762190001)
                   database_with_john))).
  vm_compute. repeat constructor.
Defined.

(** X11: patients added within one second are listed in the order they
    were added, the oldest first. *)
Theorem listing_same_second (db : database) (second : Z) :
  Forall (fun row => PatientRow.created_at row = second) (patients db) ->
  listing db = patients db.
Proof.
  unfold listing. generalize (patients db) as rows.
  induction rows as [|row rows IH]; intros Hall; [reflexivity|].
  inversion Hall as [|? ? Hrow Hrest]; subst.
  cbn [sort_desc]. rewrite (IH Hrest).
  destruct rows as [|r rows']; [reflexivity|].
  inversion Hrest as [|? ? Hr _]; subst.
  cbn [insert_desc]. rewrite Hr, Z.gtb_ltb, Z.ltb_irrefl. reflexivity.
Qed.

(** John Roe and Jane Doe, added in the same second. *)
Lemma listing_same_second_witness :
  listing (snd (run_add jane_doe_call database_with_john))
  = patients (snd (run_add jane_doe_call database_with_john)).
Proof.
  apply (listing_same_second (snd (run_add jane_doe_call database_with_john))
           1762190000).
  vm_compute. repeat constructor.
Defined.




End ListingMore.

(** ** Ages that SQLite cannot hold *)

Section AgeOverflow.
Import RecordStore.


End AgeOverflow.

(** ** More of the patient form *)

Section PatientFormMore.
Import RecordStore PatientForm.

Lemma save_insights_rows (clock : nat -> Z) (patient_id : string)
    (insights : list Insight.t) :
  forall (k : nat) (db : database),
  exists rows,
    save_insights clock k patient_id insights db
    = (inr tt,
       mkdb (patients db) (medical_data db) (intelligence_insights db ++ rows)) /\
    map stored rows = map (to_store patient_id) insights /\
    map InsightRow.created_at rows = map clock (seq k (List.length insights)).
Proof.
  induction insights as [|insight rest IH]; intros k db.
  - exists []. cbn. rewrite app_nil_r. destruct db; repeat split; reflexivity.
  - cbn [save_insights]. unfold bind, save_intelligence_insight, ret.
    match goal with
    | |- context [save_insights clock (S k) patient_id rest ?db'] =>
        destruct (IH (S k) db') as (rows & Hrun & Hstored & Htime)
    end.
    eexists (_ :: rows). split; [|split].
    + rewrite Hrun. cbn [patients medical_data intelligence_insights].
      rewrite <- app_assoc. reflexivity.
    + cbn [map]. rewrite Hstored. reflexivity.
    + cbn [map List.length seq]. rewrite Htime. reflexivity.
Qed.

(** The run of a submission that goes through. *)
Lemma on_submit_rows
    (name : string) (age : Z) (gender medical_history : string)
    (urandom : N) (clock : nat -> Z) (db : database) :
  name <> "" ->
  fits_int64 age = true ->
  patient_id_unused (new_patient_id urandom) db ->
  exists rows,
    on_submit true name age gender medical_history urandom clock db
    = (inr tt,
       mkdb
         (patients db ++
            [inserted_row
               (mk_add_call urandom (clock 0%nat) name age gender medical_history) db])
         (medical_data db)
         (intelligence_insights db ++ rows)) /\
    map stored rows
    = map (to_store (new_patient_id urandom))
        (MedicalIntelligence.analyze_patient
           (PatientData.mk (Some age) (Some gender) (Some medical_history))) /\
    map InsightRow.created_at rows = map clock (seq 1 (List.length rows)).
Proof.
  intros Hname Hfits Hunused. unfold on_submit, truthy.
  destruct (String.eqb_spec name ""); [contradiction|]. cbn [negb]. unfold bind.
  set (c := mk_add_call urandom (clock 0%nat) name age gender medical_history).
  change (add_patient urandom (clock 0%nat) name age gender medical_history db)
    with (run_add c db).
  rewrite (run_add_unused c db Hfits Hunused). cbn [call_urandom c].
  match goal with
  | |- context [save_insights clock 1 ?pid ?ins ?db'] =>
      destruct (save_insights_rows clock pid ins 1 db') as (rows & Hrun & Hstored & Htime)
  end.
  exists rows. rewrite Hrun. cbn [patients medical_data intelligence_insights].
  split; [reflexivity|]. split; [exact Hstored|].
  rewrite Htime. f_equal. f_equal.
  rewrite <- (length_map stored rows), Hstored, length_map. reflexivity.
Qed.

(** With a name and an identifier already used, or an age that does not
    fit, the run raises at the insert and stores nothing. *)
Lemma on_submit_used
    (name : string) (age : Z) (gender medical_history : string)
    (urandom : N) (clock : nat -> Z) (db : database) :
  name <> "" ->
  fits_int64 age = false \/ ~ patient_id_unused (new_patient_id urandom) db ->
  snd (on_submit true name age gender medical_history urandom clock db) = db.
Proof.
  intros Hname Hraise. unfold on_submit, truthy.
  destruct (String.eqb_spec name ""); [contradiction|]. cbn [negb]. unfold bind.
  set (c := mk_add_call urandom (clock 0%nat) name age gender medical_history).
  change (add_patient urandom (clock 0%nat) name age gender medical_history db)
    with (run_add c db).
  destruct (fits_int64 age) eqn:Hfits.
  - destruct Hraise as [Hno|Hused]; [discriminate Hno|].
    rewrite (run_add_used c db Hfits Hused). reflexivity.
  - rewrite (run_add_overflow c db Hfits). reflexivity.
Qed.

Lemma analyze_patient_length (p : PatientData.t) :
  (1 <= List.length (MedicalIntelligence.analyze_patient p) <= 3)%nat.
Proof.
  rewrite (analyze_patient_rules p).
  destruct (rule_age p >? 65)%Z;
    destruct ((rule_gender p =? "Male") && (rule_age p >? 45)%Z); cbn; lia.
Qed.

(** X13: a submission with a name, whose age fits SQLite's integer and
    whose identifier is unused, returns
    and stores the patient and, in the order of the analysis, one row per
    insight of [analyze_patient] on the submitted age, gender and history:
    each row holds the new patient's identifier and the insight's type, text
    and confidence (its recommendations are not stored), with the clock
    read once per row. *)
Theorem on_submit_stores_analysis
    (name : string) (age : Z) (gender medical_history : string)
    (urandom : N) (clock : nat -> Z) (db : database) :
  name <> "" ->
  fits_int64 age = true ->
  patient_id_unused (new_patient_id urandom) db ->
  exists rows,
    on_submit true name age gender medical_history urandom clock db
    = (inr tt,
       mkdb
         (patients db ++
            [inserted_row
               (mk_add_call urandom (clock 0%nat) name age gender medical_history) db])
         (medical_data db)
         (intelligence_insights db ++ rows)) /\
    map stored rows
    = map (to_store (new_patient_id urandom))
        (MedicalIntelligence.analyze_patient
           (PatientData.mk (Some age) (Some gender) (Some medical_history))) /\
    map InsightRow.created_at rows = map clock (seq 1 (List.length rows)).
Proof.
  intros Hname Hfits Hunused.
  apply (on_submit_rows name age gender medical_history urandom clock db
           Hname Hfits Hunused).
Qed.

(** Jane Doe submitted on a new file. *)
Lemma on_submit_stores_analysis_witness :
  exists rows,
    on_submit true "Jane Doe" 70 "Female" "none"
      0x9a7c4e215b3d4f608e1a2c3d4e5f6071 (fun k => 1762190000 + Z.of_nat k)%Z
      empty_database
    = (inr tt,
       mkdb
         (patients empty_database ++
            [inserted_row
               (mk_add_call 0x9a7c4e215b3d4f608e1a2c3d4e5f6071
                  (1762190000 + Z.of_nat 0)%Z "Jane Doe" 70 "Female" "none")
               empty_database])
         (medical_data empty_database)
         (intelligence_insights empty_database ++ rows)) /\
    map stored rows
    = map (to_store (new_patient_id 0x9a7c4e215b3d4f608e1a2c3d4e5f6071))
        (MedicalIntelligence.analyze_patient
           (PatientData.mk (Some 70%Z) (Some "Female") (Some "none"))) /\
    map InsightRow.created_at rows
    = map (fun k => 1762190000 + Z.of_nat k)%Z (seq 1 (List.length rows)).
Proof.
  apply (on_submit_stores_analysis "Jane Doe" 70 "Female" "none"
           0x9a7c4e215b3d4f608e1a2c3d4e5f6071
           (fun k => 1762190000 + Z.of_nat k)%Z empty_database).
  - discriminate.
  - reflexivity.
  - constructor.
Defined.

(** A submission leaves the store as it was, or with one more patient and
    between one and three insights, all of that patient. *)
Lemma submit_cases (s : submission) (db : database) :
  snd (submit s db) = db \/
  exists row rows,
    snd (submit s db)
    = mkdb (patients db ++ [row]) (medical_data db) (intelligence_insights db ++ rows) /\
    Forall (fun r => InsightRow.patient_id r = PatientRow.patient_id row) rows /\
    (1 <= List.length rows <= 3)%nat.
Proof.
  unfold submit. destruct s as [submitted name age gender history urandom clock].
  cbn [form_submitted form_name form_age form_gender form_medical_history
         form_urandom form_clock].
  destruct submitted; [|left; reflexivity].
  destruct (String.eqb_spec name "") as [->|Hname]; [left; reflexivity|].
  destruct (fits_int64 age) eqn:Hfits;
    [|left; apply on_submit_used; [exact Hname|left; exact Hfits]].
  destruct (Forall_dec (fun row => PatientRow.patient_id row <> new_patient_id urandom)
              (fun row => match string_dec (PatientRow.patient_id row)
                                  (new_patient_id urandom) with
                          | left e => right (fun n => n e)
                          | right n => left n
                          end)
              (patients db)) as [Hunused|Hused].
  - right.
    destruct (on_submit_rows name age gender history urandom clock db
                Hname Hfits Hunused) as (rows & Hrun & Hstored & _).
    eexists _, rows. rewrite Hrun. cbn [snd]. split; [reflexivity|]. split.
    + rewrite Forall_forall. intros r Hr.
      apply (in_map stored) in Hr. rewrite Hstored in Hr.
      apply in_map_iff in Hr. destruct Hr as (i & Heq & _).
      unfold stored, to_store in Heq. injection Heq as Hpid _ _ _.
      rewrite <- Hpid. reflexivity.
    + rewrite <- (length_map stored rows), Hstored, length_map.
      apply analyze_patient_length.
  - left. apply on_submit_used; [exact Hname|right; exact Hused].
Qed.

End PatientFormMore.

(** ** The store the application builds, and the dashboard *)

Section FormsOnly.
Import RecordStore.

(** What holds of a store that only the form has written to. *)
Let linked (db : database) : Prop :=
  Forall (fun r => In (InsightRow.patient_id r)
                     (map PatientRow.patient_id (patients db)))
    (intelligence_insights db) /\
  (List.length (patients db) <= List.length (intelligence_insights db))%nat /\
  (List.length (intelligence_insights db) <= 3 * List.length (patients db))%nat.

Lemma submit_linked (s : submission) (db : database) :
  linked db -> linked (snd (submit s db)).
Proof.
  intros (Hall & Hlo & Hhi).
  destruct (submit_cases s db) as [->|(row & rows & -> & Hrows & Hlen)];
    [repeat split; assumption|].
  unfold linked. cbn [patients intelligence_insights].
  rewrite map_app, !length_app. cbn [map List.length].
  repeat split; try lia.
  apply Forall_app. split.
  - eapply Forall_impl; [|exact Hall]. cbn. intros r Hr.
    apply in_or_app. left. exact Hr.
  - eapply Forall_impl; [|exact Hrows]. cbn. intros r Hr.
    apply in_or_app. right. left. symmetry. exact Hr.
Qed.

Lemma store_after_forms_linked (submissions : list submission) :
  linked (store_after_forms submissions).
Proof.
  unfold store_after_forms, store_after.
  assert (Hgen : forall db, linked db ->
                            linked (fold_left perform (map SubmitForm submissions) db)).
  { induction submissions as [|s rest IH]; intros db Hdb; [exact Hdb|].
    cbn [map fold_left perform]. apply IH, submit_linked, Hdb. }
  apply Hgen. repeat split; cbn; try lia. constructor.
Qed.

(** X14: in a store written through the form alone every insight belongs
    to a stored patient, and there are at least as many insights as
    patients and at most three times as many. *)
Theorem form_store_linked (submissions : list submission) :
  Forall (fun r => In (InsightRow.patient_id r)
                     (map PatientRow.patient_id
                        (patients (store_after_forms submissions))))
    (intelligence_insights (store_after_forms submissions)) /\
  (List.length (patients (store_after_forms submissions))
   <= List.length (intelligence_insights (store_after_forms submissions))
   <= 3 * List.length (patients (store_after_forms submissions)))%nat.
Proof.
  destruct (store_after_forms_linked submissions) as (Hall & Hlo & Hhi).
  split; [exact Hall|]. split; assumption.
Qed.

(** X15: the dashboard never raises; its three counts are the number of
    patients, three times and five times that number, and the chart is
    drawn exactly when there is a patient.  The count shown as
    'Intelligence Insights' is not read from the table of insights: in a
    store written through the form alone, which holds at most three insights
    per patient, it exceeds the number of rows as soon as there is a
    patient. *)
Theorem dashboard_counts (submissions : list submission) :
  exists view,
    Dashboard.dashboard_page (store_after_forms submissions) = inr view /\
    Dashboard.total_patients view
    = List.length (patients (store_after_forms submissions)) /\
    Dashboard.ai_analyses view
    = (3 * List.length (patients (store_after_forms submissions)))%nat /\
    Dashboard.intelligence_insights view
    = (5 * List.length (patients (store_after_forms submissions)))%nat /\
    (Dashboard.distribution view = None
     <-> patients (store_after_forms submissions) = []) /\
    (patients (store_after_forms submissions) <> [] ->
     (List.length (intelligence_insights (store_after_forms submissions))
      < Dashboard.intelligence_insights view)%nat).
Proof.
  set (db := store_after_forms submissions).
  destruct (store_after_forms_linked submissions) as (_ & _ & Hhi). fold db in Hhi.
  unfold Dashboard.dashboard_page, query, get_all_patients, ret. cbn [fst].
  eexists. split; [reflexivity|].
  cbn [Dashboard.total_patients Dashboard.ai_analyses Dashboard.intelligence_insights
         Dashboard.distribution].
  rewrite sort_desc_length.
  assert (Hempty : sort_desc Z.gtb PatientRow.created_at (patients db) = []
                   <-> patients db = []).
  { split; intros H.
    - apply length_zero_iff_nil. rewrite <- (sort_desc_length Z.gtb PatientRow.created_at).
      rewrite H. reflexivity.
    - rewrite H. reflexivity. }
  repeat split; try lia.
  - intros Hnone. apply Hempty.
    destruct (sort_desc Z.gtb PatientRow.created_at (patients db)); [reflexivity|discriminate].
  - intros Hnil. apply Hempty in Hnil. rewrite Hnil. reflexivity.
  - intros Hne. destruct (patients db) as [|row rows] eqn:E; [contradiction|].
    cbn [List.length] in *. lia.
Qed.

End FormsOnly.

(** ** The picker of "Analyze Existing" *)

Section Picker.
Import RecordStore AnalyzeExisting.

Lemma append_assoc (s1 s2 s3 : string) :
  ((s1 ++ s2) ++ s3 = s1 ++ (s2 ++ s3))%string.
Proof.
  induction s1 as [|c s1 IH]; cbn; [reflexivity|]. rewrite IH. reflexivity.
Qed.

Lemma append_empty_r (s : string) : (s ++ "" = s)%string.
Proof.
  induction s as [|c s IH]; cbn; [reflexivity|]. rewrite IH. reflexivity.
Qed.

Lemma prefix_empty (s : string) : prefix "" s = true.
Proof. destruct s; reflexivity. Qed.

(** Whether 'ID: ' begins a text is read off its first four characters:
    a blank in the first three places, or a bracket in any, rules it out. *)
Lemma marker_window (x rest : string) :
  prefix "ID: " (x ++ " ") = false ->
  prefix "ID: " (x ++ " (" ++ rest) = false.
Proof.
  destruct x as [|c1 [|c2 [|c3 [|c4 x]]]]; cbn [prefix append];
    repeat match goal with
           | |- context [ascii_dec ?a ?b] => destruct (ascii_dec a b)
           end;
    try reflexivity; try discriminate; auto.
  rewrite !prefix_empty. auto.
Qed.

(** The scan passes a name free of 'ID: ' and cuts at the mark the label
    puts after it. *)
Lemma split_label (name : string) :
  occurs "ID: " (name ++ " ") = false ->
  forall piece rest : string,
    split_from "ID: " 0 piece (name ++ " (ID: " ++ rest)
    = (piece ++ name ++ " (")%string :: split_from "ID: " 0 "" rest.
Proof.
  induction name as [|c name IH]; intros Hfree piece rest.
  - cbn [append split_from prefix String.length Nat.sub].
    repeat match goal with
           | |- context [ascii_dec ?a ?b] => destruct (ascii_dec a b)
           end;
      try discriminate; try congruence;
      rewrite prefix_empty, !append_assoc; reflexivity.
  - cbn [occurs append] in Hfree. apply orb_false_iff in Hfree.
    destruct Hfree as [Hhere Hlater].
    change ((String c name ++ " (ID: " ++ rest)%string)
      with (String c (name ++ " (ID: " ++ rest)%string).
    cbn [split_from].
    assert (Hwin : prefix "ID: " (String c (name ++ " (ID: " ++ rest)%string) = false)
      by exact (marker_window (String c name) ("ID: " ++ rest) Hhere).
    rewrite Hwin, (IH Hlater), !append_assoc. reflexivity.
Qed.

(** A text without the letter I holds no 'ID: ': it is one piece. *)
Lemma split_no_I (t : string) :
  all_chars (fun c => negb (Ascii.eqb c "I")) t = true ->
  forall piece : string, split_from "ID: " 0 piece t = [(piece ++ t)%string].
Proof.
  induction t as [|c t IH]; intros Hall piece.
  - cbn. rewrite append_empty_r. reflexivity.
  - cbn [all_chars] in Hall. apply andb_true_iff in Hall. destruct Hall as [Hc Ht].
    cbn [split_from prefix].
    destruct (ascii_dec "I" c) as [<-|Hne]; [discriminate Hc|].
    rewrite (IH Ht), append_assoc. reflexivity.
Qed.

Lemma upper_hex_not_I (c : ascii) :
  is_upper_hex c = true -> negb (Ascii.eqb c "I") = true.
Proof.
  destruct c as [[] [] [] [] [] [] [] []]; vm_compute; intros H;
    (reflexivity || discriminate H).
Qed.

Lemma upper_hex_not_bracket (c : ascii) :
  is_upper_hex c = true -> char_in c ")" = false.
Proof.
  destruct c as [[] [] [] [] [] [] [] []]; vm_compute; intros H;
    (reflexivity || discriminate H).
Qed.

(** The piece after the mark, for an identifier of the store. *)
Lemma split_identifier (patient_id : string) :
  hex_id_pattern patient_id ->
  split_from "ID: " 0 "" (patient_id ++ ")") = [(patient_id ++ ")")%string].
Proof.
  intros (suffix & -> & _ & Hhex).
  cbn [append split_from prefix String.length Nat.sub].
  repeat match goal with
         | |- context [ascii_dec ?a ?b] => destruct (ascii_dec a b)
         end;
    try discriminate; try congruence.
  rewrite split_no_I; [reflexivity|].
  rewrite all_chars_append. apply andb_true_iff. split; [|reflexivity].
  apply (all_chars_weaken is_upper_hex); [exact upper_hex_not_I|exact Hhex].
Qed.

(** A closing bracket at the end goes... *)
Lemma rstrip_closing (t : string) : rstrip (t ++ ")") ")" = rstrip t ")".
Proof.
  induction t as [|c t IH]; cbn [append rstrip]; [reflexivity|].
  rewrite IH. reflexivity.
Qed.

(** ... and a text without one stays. *)
Lemma rstrip_none (t : string) :
  all_chars (fun c => negb (char_in c ")")) t = true -> rstrip t ")" = t.
Proof.
  induction t as [|c t IH]; cbn [all_chars rstrip]; [reflexivity|].
  intros Hall. apply andb_true_iff in Hall. destruct Hall as [Hc Ht].
  rewrite (IH Ht). destruct t; [|reflexivity].
  apply negb_true_iff in Hc. rewrite Hc. reflexivity.
Qed.

Lemma rstrip_identifier (patient_id : string) :
  hex_id_pattern patient_id -> rstrip (patient_id ++ ")") ")" = patient_id.
Proof.
  intros (suffix & -> & _ & Hhex).
  rewrite rstrip_closing. apply rstrip_none.
  rewrite all_chars_append. apply andb_true_iff. split; [reflexivity|].
  apply (all_chars_weaken is_upper_hex); [|exact Hhex].
  intros c Hc. apply negb_true_iff, upper_hex_not_bracket, Hc.
Qed.

Lemma parse_label (name patient_id : string) :
  occurs "ID: " (name ++ " ") = false ->
  hex_id_pattern patient_id ->
  parse_patient_id (name ++ " (ID: " ++ patient_id ++ ")") = inr patient_id.
Proof.
  intros Hfree Hid. unfold parse_patient_id.
  change (split (name ++ " (ID: " ++ patient_id ++ ")")%string "ID: ")
    with (@inr py_exception _
            (split_from "ID: " 0 "" (name ++ " (ID: " ++ patient_id ++ ")")%string)).
  rewrite (split_label name Hfree "" (patient_id ++ ")")).
  rewrite (split_identifier patient_id Hid).
  cbn [list_index nth_error]. rewrite (rstrip_identifier patient_id Hid). reflexivity.
Qed.

(** X16: the label of a patient in the picker leads back to the patient's
    identifier, provided 'ID: ' does not occur in the name followed by a
    blank, and the identifier is one the store gives. *)
Theorem option_label_round_trip (row : PatientRow.t) :
  occurs "ID: " (PatientRow.name row ++ " ") = false ->
  hex_id_pattern (PatientRow.patient_id row) ->
  parse_patient_id (option_label row) = inr (PatientRow.patient_id row).
Proof.
  intros Hfree Hid. unfold option_label.
  apply (parse_label (PatientRow.name row) (PatientRow.patient_id row) Hfree Hid).
Qed.

(** The row of Jane Doe: its label 'Jane Doe (ID: MI-9A7C4E21)' gives
    'MI-9A7C4E21'. *)
Lemma option_label_round_trip_witness :
  parse_patient_id
    (option_label
       (PatientRow.mk 1 "MI-9A7C4E21" "Jane Doe" 70 "Female" "none" 1762190000))
  = inr "MI-9A7C4E21".
Proof.
  apply (option_label_round_trip
           (PatientRow.mk 1 "MI-9A7C4E21" "Jane Doe" 70 "Female" "none" 1762190000)).
  - reflexivity.
  - exists "9A7C4E21". repeat split; reflexivity.
Defined.















End Picker.

(** ** Navigation *)

Section Navigation.
Import Main.

(** A session holds no page yet, or one of the four. *)
Let known (session : option string) : Prop :=
  session = None \/ exists key, session = Some key /\ In key (map fst pages).

Lemma interaction_known (session : option string) (button : string -> bool) :
  known session ->
  exists key page,
    interaction session button = Rendered key (Some page) /\
    In key (map fst pages) /\
    dispatch key = Some page /\
    ((forall k, button k = false) ->
     key = match session with Some current => current | None => "Intelligence Dashboard" end) /\
    (forall k, In k (map fst pages) -> (forall k', button k' = (k' =? k)) -> key = k).
Proof.
  intros Hknown.
  assert (Hcurrent : exists current,
             In current (map fst pages) /\
             current = match session with
                       | Some c => c
                       | None => "Intelligence Dashboard"
                       end /\
             interaction session button = interaction (Some current) button).
  { destruct Hknown as [->|(key & -> & Hkey)].
    - exists "Intelligence Dashboard". repeat split. left. reflexivity.
    - exists key. repeat split. exact Hkey. }
  destruct Hcurrent as (current & Hin & Hcur & ->). rewrite <- Hcur. clear Hcur Hknown.
  unfold interaction, main.
  cbn in Hin.
  destruct Hin as [<-|[<-|[<-|[<-|[]]]]]; cbn [sidebar pages String.eqb Ascii.eqb Bool.eqb];
    destruct (button "Intelligence Dashboard") eqn:B1;
    destruct (button "Patient Analysis") eqn:B2;
    destruct (button "Diagnostic Intelligence") eqn:B3;
    destruct (button "Medical Insights") eqn:B4;
    cbn;
    (eexists _, _; split; [reflexivity|]; split; [cbn; tauto|]; split; [reflexivity|];
     split;
     [ intros Hnone; try reflexivity;
       first [ rewrite Hnone in B1; discriminate B1
             | rewrite Hnone in B2; discriminate B2
             | rewrite Hnone in B3; discriminate B3
             | rewrite Hnone in B4; discriminate B4 ]
     | intros k Hk Hpress; rewrite Hpress in B1, B2, B3, B4;
       cbn in Hk;
       destruct Hk as [<-|[<-|[<-|[<-|[]]]]];
       first [ reflexivity | discriminate B1 | discriminate B2
             | discriminate B3 | discriminate B4 ] ]).
Qed.

Lemma session_after_known (buttons : list (string -> bool)) :
  known (session_after buttons).
Proof.
  unfold session_after.
  assert (Hgen : forall session, known session ->
             known (fold_left
                      (fun s b => state_after (interaction s b)) buttons session)).
  { induction buttons as [|button rest IH]; intros session Hs; [exact Hs|].
    cbn [fold_left]. apply IH.
    destruct (interaction_known session button Hs) as (key & page & -> & Hkey & _).
    right. exists key. split; [reflexivity|exact Hkey]. }
  apply Hgen. left. reflexivity.
Qed.

(** X19: however the sidebar was used before, an interaction ends with
    one of the four pages on the screen, never with none and never with a
    rerun pending: the page of the button pressed, and the page shown
    before (the dashboard on a new session) when no button is pressed. *)
Theorem main_shows_a_page (buttons : list (string -> bool)) (button : string -> bool) :
  exists key page,
    interaction (session_after buttons) button = Rendered key (Some page) /\
    In key (map fst pages) /\
    dispatch key = Some page /\
    ((forall k, button k = false) ->
     key = match session_after buttons with
           | Some current => current
           | None => "Intelligence Dashboard"
           end) /\
    (forall k, In k (map fst pages) -> button = press k -> key = k).
Proof.
  destruct (interaction_known (session_after buttons) button
              (session_after_known buttons))
    as (key & page & Hrun & Hkey & Hpage & Hnone & Hpress).
  exists key, page. repeat split; try assumption.
  intros k Hk ->. apply (Hpress k Hk). intros k'. reflexivity.
Qed.

End Navigation.

(** ** The launcher *)

Section LauncherFacts.
Import Launcher.

(** X20: the launcher exits with status 1 exactly when [mediclin.py] is
    missing or starting the command raises an exception, and with status 0
    otherwise, whatever status the command itself ends with; it starts no
    command when the file is missing, and otherwise the one command, with
    port 8501 and headless mode. *)
Theorem launcher_exit_status (exists_ : bool) (executable : string)
    (child : list string -> spawn) :
  (exit_status (main exists_ executable child) = 1%Z <->
   exists_ = false \/
   exists message, child (streamlit_command executable) = Raised message) /\
  (exit_status (main exists_ executable child) = 0%Z \/
   exit_status (main exists_ executable child) = 1%Z) /\
  (exists_ = false -> command (main exists_ executable child) = None) /\
  (exists_ = true ->
   command (main exists_ executable child) = Some (streamlit_command executable)).
Proof.
  unfold main. fold (streamlit_command executable).
  destruct exists_; cbn [negb].
  - destruct (child (streamlit_command executable)) as [code| |message] eqn:E;
      cbn [exit_status command]; repeat split; auto;
      try (intros H; discriminate H);
      try (intros [H|(m & H)]; discriminate H).
    + intros _. right. exists message. reflexivity.
  - cbn [exit_status command]. repeat split; auto. intros H; discriminate H.
Qed.

End LauncherFacts.

(** ** [medical_insights_page] *)

Section MedicalInsightsFacts.
Import MedicalInsights.

(** The floats of the literals of [show_insights], and what the least and
    the greatest output of [random.random()] give: the float 0.8 and the
    float 0.95, which is below the decimal 0.95. *)
Lemma insights_ends :
  (0 <= Float64.literal 0.8)%Q /\
  (0 <= Float64.sub (Float64.literal 0.95) (Float64.literal 0.8))%Q /\
  (0.8 <= Float64.literal 0.8)%Q /\
  (Float64.literal 0.8 <= Float64.round (Float64.literal 0.8))%Q /\
  (Float64.add (Float64.literal 0.8)
     (Float64.mul (Float64.sub (Float64.literal 0.95) (Float64.literal 0.8))
        greatest_output) <= Float64.literal 0.95)%Q /\
  (Float64.literal 0.95 < 0.95)%Q.
Proof.
  repeat split;
    try (apply Qle_bool_imp_le; vm_compute; reflexivity);
    apply Qlt_alt; vm_compute; reflexivity.
Qed.

Lemma uniform_state (a b : Q) (g : Random.t) :
  snd (Random.uniform a b g) = Random.mk (Random.outputs g) (S (Random.drawn g)).
Proof. reflexivity. Qed.

(** The insights of a category are shown in order, one draw each, every
    confidence in range. *)
Lemma show_insights_trace (insights : list string) :
  forall g : Random.t,
    Random.in_unit_interval g ->
    map fst (fst (show_insights insights g)) = insights /\
    Forall shown_in_range (fst (show_insights insights g)) /\
    snd (show_insights insights g)
    = Random.mk (Random.outputs g) (Random.drawn g + List.length insights) /\
    Random.in_unit_interval (snd (show_insights insights g)).
Proof.
  induction insights as [|insight rest IH]; intros g Hg.
  - cbn [show_insights fst snd List.length map]. rewrite Nat.add_0_r.
    split; [reflexivity|]. split; [constructor|].
    split; [destruct g; reflexivity|exact Hg].
  - cbn [show_insights].
    destruct insights_ends as (Ha & Hw & Hdec & Hlow & Hhigh & Hlit).
    destruct (uniform_between _ _ g Hg Ha Hw) as (Hlo & Hhi & Hg1).
    pose proof (uniform_state (Float64.literal 0.8) (Float64.literal 0.95) g) as Hs.
    destruct (Random.uniform (Float64.literal 0.8) (Float64.literal 0.95) g)
      as [confidence g1].
    cbn [fst snd] in Hlo, Hhi, Hg1, Hs.
    destruct (IH g1 Hg1) as (Hnames & Hrange & Hstate & Hunit).
    destruct (show_insights rest g1) as [shown g2].
    cbn [fst snd map] in *.
    split; [|split; [|split]].
    + rewrite Hnames. reflexivity.
    + constructor; [|exact Hrange]. unfold shown_in_range. cbn [snd].
      assert (Hfloor : (Float64.literal 0.8 <= confidence)%Q).
      { eapply Qle_trans; [exact Hlow|exact Hlo]. }
      assert (Hceil : (confidence <= Float64.literal 0.95)%Q).
      { eapply Qle_trans; [exact Hhi|exact Hhigh]. }
      repeat split; try assumption.
      * eapply Qle_trans; [exact Hdec|exact Hfloor].
      * eapply Qle_lt_trans; [exact Hceil|exact Hlit].
    + rewrite Hstate, Hs. cbn. f_equal. lia.
    + exact Hunit.
Qed.

(** A column over every second position from [List.length before]: it
    shows every second category of [rest], and never looks outside the
    list. *)
Lemma column_alternate (guarded : bool) (rest : list (string * list string)) :
  forall (n : nat) (before : list (string * list string)) (g : Random.t),
    (List.length rest < 2 * n + 1)%nat -> (2 * n <= List.length rest + 1)%nat ->
    Random.in_unit_interval g ->
    exists blocks g',
      column guarded (range_count n (List.length before) 2) (before ++ rest) g
      = inr (blocks, g') /\
      map shown_category blocks = alternate rest /\
      Forall block_in_range blocks /\
      g' = Random.mk (Random.outputs g)
             (Random.drawn g + insight_count (alternate rest)) /\
      Random.in_unit_interval g'.
Proof.
  induction rest as [rest IH] using (well_founded_induction
                                        (well_founded_ltof _ (@List.length _))).
  intros n before g Hhi Hlo Hg.
  destruct rest as [|[category insights] rest1].
  - assert (n = 0)%nat by (cbn in *; lia). subst n.
    exists [], g. cbn [range_count column map alternate]. unfold insight_count.
    cbn [map list_sum]. rewrite Nat.add_0_r.
    split; [reflexivity|]. split; [reflexivity|]. split; [constructor|].
    split; [destruct g; reflexivity|exact Hg].
  - destruct n as [|n]; [cbn in Hhi; lia|].
    cbn [range_count column].
    assert (Hin : (List.length before <? List.length (before ++ (category, insights) :: rest1))%nat
                  = true).
    { apply Nat.ltb_lt. rewrite length_app. cbn. lia. }
    rewrite Hin. cbn [negb]. rewrite andb_false_r.
    unfold list_index. rewrite nth_error_app2 by lia. rewrite Nat.sub_diag. cbn [nth_error].
    destruct (show_insights_trace insights g Hg) as (Hnames & Hrange & Hstate & Hunit).
    destruct (show_insights insights g) as [shown g1]. cbn [fst snd] in *.
    destruct rest1 as [|second rest2].
    + assert (n = 0)%nat by (cbn in *; lia). subst n.
      cbn [range_count column]. eexists _, _. split; [reflexivity|].
      split; [|split; [|split]].
      * cbn. unfold shown_category. cbn. rewrite Hnames. reflexivity.
      * constructor; [exact Hrange|constructor].
      * rewrite Hstate. unfold insight_count.
        cbn [map list_sum fold_right snd alternate]. f_equal. lia.
      * exact Hunit.
    + destruct (IH rest2) with (n := n) (before := before ++ [(category, insights); second])
                               (g := g1)
        as (blocks & g' & Hrun & Hshown & Hblocks & Hg' & Hunit');
        [unfold ltof; cbn; lia|cbn in *; lia|cbn in *; lia|exact Hunit|].
      rewrite length_app in Hrun. cbn [List.length] in Hrun.
      rewrite <- app_assoc in Hrun. cbn [app] in Hrun.
      rewrite Hrun. eexists _, _. split; [reflexivity|].
      split; [|split; [|split]].
      * cbn [map alternate]. rewrite Hshown. unfold shown_category at 1. cbn.
        rewrite Hnames. reflexivity.
      * constructor; [exact Hrange|exact Hblocks].
      * rewrite Hg', Hstate. unfold insight_count.
        cbn [map list_sum fold_right snd alternate Random.outputs Random.drawn]. f_equal.
        unfold list_sum. lia.
      * exact Hunit'.
Qed.

Lemma alternate_cover {A : Type} (l : list A) :
  Permutation (alternate l ++ alternate (tl l)) l.
Proof.
  induction l as [l IH] using (well_founded_induction
                                  (well_founded_ltof _ (@List.length A))).
  destruct l as [|x [|y rest]]; [constructor|apply Permutation_refl|].
  cbn [alternate tl app].
  constructor. apply Permutation_sym.
  eapply perm_trans; [|apply Permutation_middle].
  constructor. apply Permutation_sym.
  destruct rest as [|z rest']; [constructor|].
  apply (IH (z :: rest')). unfold ltof. cbn. lia.
Qed.

Lemma positions_bounds (len : nat) :
  (len < 2 * ((len + 1) / 2) + 1)%nat /\ (2 * ((len + 1) / 2) <= len + 1)%nat.
Proof.
  pose proof (Nat.div_mod_eq (len + 1) 2) as Hdiv.
  pose proof (Nat.mod_upper_bound (len + 1) 2) as Hmod. lia.
Qed.

(** X21: over any categories and any generator the two columns are shown
    without an [IndexError]: the first holds every second category from the
    first, the second every second from the second, so that each category
    is shown once, with its insights in order; every insight gets a
    confidence from 0.8 to 0.95 (at least the float 0.8 and at most the
    float 0.95, which lies below the decimal), and the generator is drawn
    from once per insight. *)
Theorem columns_show_every_category
    (categories : list (string * list string)) (g : Random.t) :
  Random.in_unit_interval g ->
  exists col1 col2 g',
    columns categories g = inr (col1, col2, g') /\
    map shown_category col1 = alternate categories /\
    map shown_category col2 = alternate (tl categories) /\
    Permutation (map shown_category (col1 ++ col2)) categories /\
    Forall block_in_range (col1 ++ col2) /\
    g' = Random.mk (Random.outputs g) (Random.drawn g + insight_count categories).
Proof.
  intros Hg. unfold columns, range.
  change (2 - 1)%nat with 1%nat. rewrite Nat.sub_0_r.
  destruct (positions_bounds (List.length categories)) as [Hhi Hlo].
  destruct (column_alternate false categories _ [] g Hhi Hlo Hg)
    as (col1 & g1 & Hrun1 & Hshown1 & Hrange1 & Hg1 & Hunit1).
  cbn [List.length app] in Hrun1. rewrite Hrun1.
  assert (Hsecond : exists col2 g2,
             column true
               (range_count ((List.length categories - 1 + 1) / 2) 1 2) categories g1
             = inr (col2, g2) /\
             map shown_category col2 = alternate (tl categories) /\
             Forall block_in_range col2 /\
             g2 = Random.mk (Random.outputs g1)
                    (Random.drawn g1 + insight_count (alternate (tl categories)))).
  { destruct categories as [|first rest].
    - exists [], g1. cbn. unfold insight_count. cbn. rewrite Nat.add_0_r.
      destruct g1; repeat split; constructor.
    - cbn [List.length tl]. rewrite Nat.sub_succ, Nat.sub_0_r.
      destruct (positions_bounds (List.length rest)) as [Hhi' Hlo'].
      destruct (column_alternate true rest _ [first] g1 Hhi' Hlo' Hunit1)
        as (col2 & g2 & Hrun2 & Hshown2 & Hrange2 & Hg2 & _).
      exists col2, g2. repeat split; assumption. }
  destruct Hsecond as (col2 & g2 & Hrun2 & Hshown2 & Hrange2 & Hg2).
  rewrite Hrun2. exists col1, col2, g2. split; [reflexivity|].
  split; [exact Hshown1|]. split; [exact Hshown2|]. split; [|split].
  - rewrite map_app, Hshown1, Hshown2. apply alternate_cover.
  - apply Forall_app. split; assumption.
  - rewrite Hg2, Hg1. cbn [Random.outputs Random.drawn]. f_equal.
    rewrite <- Nat.add_assoc. f_equal.
    unfold insight_count. rewrite <- list_sum_app, <- map_app.
    apply Permutation_list_sum, Permutation_map, alternate_cover.
Qed.

(** The page itself, on the sample generator. *)
Lemma columns_show_every_category_witness :
  exists col1 col2 g',
    medical_insights_page sample_generator = inr (col1, col2, g') /\
    map shown_category col1 = alternate insight_categories /\
    map shown_category col2 = alternate (tl insight_categories) /\
    Permutation (map shown_category (col1 ++ col2)) insight_categories /\
    Forall block_in_range (col1 ++ col2) /\
    g' = Random.mk (Random.outputs sample_generator)
           (Random.drawn sample_generator + insight_count insight_categories).
Proof.
  apply (columns_show_every_category insight_categories sample_generator).
  intros n. do 5 (destruct n as [|n]; [split; [discriminate|reflexivity]|]).
  split; [discriminate|reflexivity].
Defined.

End MedicalInsightsFacts.
